(** * SIF-400 Digital Twin: the simulator, the alert log and the chat panel

    A shallow embedding of the React component [SIF400DigitalTwin] (the
    self-contained "sif" variant that simulates telemetry in the browser) and
    of the threshold panel of the server-backed variant, followed by the
    properties of the design document that these functions decide.

    JavaScript numbers are IEEE 754 binary64 values; they are modelled with
    the executable specification [SpecFloat] at precision 53 and maximal
    exponent 1024, so that comparisons, [Math.max]/[Math.min] and [+] behave
    as they do in the engine, NaN included. *)

From Stdlib Require Import ZArith List String Ascii Bool Lia DecimalString.
From Stdlib Require Import Floats.SpecFloat.
Import ListNotations.

(* ------------------------------------------------------------------ *)
(** * Part 1. The language-level operations the component relies on   *)
(* ------------------------------------------------------------------ *)

Module JS.

Definition prec : Z := 53.
Definition emax : Z := 1024.

(** A JavaScript Number. *)
Definition number : Type := spec_float.

Definition NaN : number := S754_nan.
Definition pos_infinity : number := S754_infinity false.
Definition neg_infinity : number := S754_infinity true.

(** [a + b], [a - b], [a * b], [a / b]. *)
Definition add (a b : number) : number := SFadd prec emax a b.
Definition sub (a b : number) : number := SFsub prec emax a b.
Definition mul (a b : number) : number := SFmul prec emax a b.
Definition div (a b : number) : number := SFdiv prec emax a b.

(** [a < b], [a > b], [a >= b]; each is false as soon as an operand is
    NaN. *)
Definition lt (a b : number) : bool := SFltb a b.
Definition gt (a b : number) : bool := SFltb b a.
Definition ge (a b : number) : bool := SFleb b a.
Definition le (a b : number) : bool := SFleb a b.

Definition isNaN (a : number) : bool :=
  match a with S754_nan => true | _ => false end.

Definition is_pos_zero (a : number) : bool :=
  match a with S754_zero false => true | _ => false end.

Definition is_neg_zero (a : number) : bool :=
  match a with S754_zero true => true | _ => false end.

(** A number that is neither NaN nor infinite. *)
Definition finite (x : number) : bool :=
  match x with
  | S754_zero _ | S754_finite _ _ _ => true
  | _ => false
  end.

Definition nonzero_finite (x : number) : bool :=
  match x with
  | S754_finite _ _ _ => true
  | _ => false
  end.

(** An integer literal, and a decimal literal [d / 10^k] such as [15.2]
    (that is [decimal 152 1]): the nearest binary64 value, ties to even. *)
Definition of_Z (z : Z) : number := binary_normalize prec emax z 0 false.

Definition decimal (d : Z) (k : nat) : number :=
  div (of_Z d) (of_Z (10 ^ Z.of_nat k)).

(** [Math.max(a, b)] and [Math.min(a, b)] as ECMAScript defines them: the
    result is NaN when an argument is NaN, and +0 counts as larger than
    -0; the arguments are scanned left to right from -Infinity
    (resp. +Infinity). *)
Definition max_scan (highest n : number) : number :=
  if is_pos_zero n && is_neg_zero highest then n
  else if gt n highest then n else highest.

Definition min_scan (lowest n : number) : number :=
  if is_neg_zero n && is_pos_zero lowest then n
  else if lt n lowest then n else lowest.

Definition Math_max (a b : number) : number :=
  if isNaN a || isNaN b then NaN
  else max_scan (max_scan neg_infinity a) b.

Definition Math_min (a b : number) : number :=
  if isNaN a || isNaN b then NaN
  else min_scan (min_scan pos_infinity a) b.

(** [arr.slice(-n)]: the last [n] elements, the whole array when it has
    fewer. *)
Definition slice_last {A : Type} (n : nat) (arr : list A) : list A :=
  skipn (List.length arr - n) arr.

(** [arr.join(sep)] on an array of strings. *)
Fixpoint join (sep : string) (arr : list string) : string :=
  match arr with
  | [] => EmptyString
  | [x] => x
  | x :: rest => (x ++ sep ++ join sep rest)%string
  end.

(** Strings hold the UTF-8 encoding of the text (the pictographs of the
    chat texts below are written that way).  [String.prototype.trim]
    removes white space and line terminators: U+0009 to U+000D and U+0020,
    one byte each; U+00A0, two bytes; and U+1680, U+2000 to U+200A,
    U+2028, U+2029, U+202F, U+205F, U+3000 and U+FEFF, three bytes
    each. *)
Definition space1 (b1 : nat) : bool :=
  ((9 <=? b1) && (b1 <=? 13) || (b1 =? 32))%nat.

Definition space2 (b1 b2 : nat) : bool :=
  ((b1 =? 194) && (b2 =? 160))%nat.

Definition space3 (b1 b2 b3 : nat) : bool :=
  ((b1 =? 225) && (b2 =? 154) && (b3 =? 128)
   || (b1 =? 226) && (b2 =? 128)
      && ((128 <=? b3) && (b3 <=? 138)
          || (b3 =? 168) || (b3 =? 169) || (b3 =? 175))
   || (b1 =? 226) && (b2 =? 129) && (b3 =? 159)
   || (b1 =? 227) && (b2 =? 128) && (b3 =? 128)
   || (b1 =? 239) && (b2 =? 187) && (b3 =? 191))%nat.

(** [!s.trim()]: the string is empty once trimmed, that is, it is made of
    white space and line terminators only. *)
Fixpoint blank (s : string) : bool :=
  match s with
  | EmptyString => true
  | String c1 rest1 =>
      if space1 (nat_of_ascii c1) then blank rest1
      else
        match rest1 with
        | EmptyString => false
        | String c2 rest2 =>
            if space2 (nat_of_ascii c1) (nat_of_ascii c2) then blank rest2
            else
              match rest2 with
              | EmptyString => false
              | String c3 rest3 =>
                  if space3 (nat_of_ascii c1) (nat_of_ascii c2)
                       (nat_of_ascii c3)
                  then blank rest3
                  else false
              end
        end
  end.

Definition newline : string := String (ascii_of_nat 10) EmptyString.

(** Decimal digits of a natural number. *)
Definition digits (n : N) : string :=
  NilZero.string_of_uint (N.to_uint n).

(** [x.toFixed(1)] is a built-in of the host; the component's functions
    take it as a parameter.  [toFixed1_plain] is the instance used to run
    them: it follows ECMAScript on NaN, the infinities, the zeros and every
    finite value (the integer [n] for which [n / 10 - x] is closest to
    zero, the larger one on a tie, printed with one fractional digit),
    except that it never switches to exponent notation, which the host
    does from 1e21 on. *)
Definition tenths (m : positive) (e : Z) : Z :=
  match e with
  | Zneg p => (2 * (10 * Zpos m) + 2 ^ Zpos p) / (2 * 2 ^ Zpos p)
  | _ => 10 * Zpos m * 2 ^ e
  end.

Definition toFixed1_plain (x : number) : string :=
  match x with
  | S754_nan => "NaN"
  | S754_infinity false => "Infinity"
  | S754_infinity true => "-Infinity"
  | S754_zero _ => "0.0"
  | S754_finite s m e =>
      let n := tenths m e in
      ((if s then "-" else "") ++ digits (Z.to_N (n / 10)) ++ "."
         ++ digits (Z.to_N (n mod 10)))%string
  end.

End JS.

Import JS.

(* ------------------------------------------------------------------ *)
(** * Part 2. The self-contained twin: state, simulation step, chat    *)
(* ------------------------------------------------------------------ *)

Module Status.
(** ['normal' | 'warning'], the only values the component stores. *)
Inductive t : Set := normal | warning.

Definition to_string (s : t) : string :=
  match s with normal => "normal" | warning => "warning" end.
End Status.

Module AlertType.
(** The [type] of an alert: ['voltage' | 'current']. *)
Inductive t : Set := voltage | current.

Definition eqb (a b : t) : bool :=
  match a, b with
  | voltage, voltage | current, current => true
  | _, _ => false
  end.
End AlertType.

Module TrendPoint.
Record t : Type := mk
  { voltage : number; current : number; timestamp : string }.
End TrendPoint.

Module Station.
(** The value stored under a station code in [stationData]. *)
Record t : Type := mk
  { voltage : number;
    current : number;
    status : Status.t;
    trend : list TrendPoint.t }.
End Station.

Module Alert.
Record t : Type := mk
  { id : Z;
    station : string;
    type : AlertType.t;
    message : string;
    timestamp : string }.
End Alert.

(** Bounds of the normal operating range. *)
Record ThresholdConfig : Type := mkThresholds
  { voltage_min : number;
    voltage_max : number;
    current_min : number;
    current_max : number }.

(** The bounds of both variants of the component: the literals
    [216], [224], [14.5], [15.8] of the simulation step, which are also the
    initial [thresholds] state of the server-backed variant. *)
Definition default_thresholds : ThresholdConfig :=
  {| voltage_min := of_Z 216;
     voltage_max := of_Z 224;
     current_min := decimal 145 1;
     current_max := decimal 158 1 |}.

Module Sif.

(** The two pieces of React state the simulation reads and writes.
    [stationData] is an object keyed by station code; its keys are
    visited in insertion order, so it is kept as an association list. *)
Record State : Type := mkState
  { stationData : list (string * Station.t);
    alerts : list Alert.t }.

(** What the environment answers while one station is processed during
    one tick: the two [Math.random()] draws, the clock text stored with
    the trend point, and the [Date.now()] value and clock text read when
    an alert object is built. *)
Record Effects : Type := mkEffects
  { random_voltage : number;
    random_current : number;
    trend_clock : string;
    alert_now : Z;
    alert_clock : string }.

(** The answers of one tick, per station code. *)
Definition Env : Type := string -> Effects.

(** [useState] initial values. *)
Definition initial_stationData : list (string * Station.t) :=
  [ ("SIF-401", Station.mk (of_Z 220) (decimal 152 1) Status.normal []);
    ("SIF-402", Station.mk (of_Z 218) (decimal 148 1) Status.normal []);
    ("SIF-405", Station.mk (of_Z 221) (decimal 155 1) Status.normal []);
    ("SIF-407", Station.mk (of_Z 219) (decimal 151 1) Status.normal []) ]%string.

Definition initial_state : State :=
  {| stationData := initial_stationData; alerts := [] |}.

(** [stationData[code]]. *)
Fixpoint get (code : string) (data : list (string * Station.t))
    : option Station.t :=
  match data with
  | [] => None
  | (k, s) :: rest => if String.eqb k code then Some s else get code rest
  end.

(** [alerts.find(a => a.station === station && a.type === ty)]. *)
Definition alertExists (alerts : list Alert.t) (station : string)
    (ty : AlertType.t) : option Alert.t :=
  find (fun a => String.eqb (Alert.station a) station
                 && AlertType.eqb (Alert.type a) ty) alerts.

(** [Math.max(lo, Math.min(hi, x))]. *)
Definition clamp (lo hi x : number) : number :=
  Math_max lo (Math_min hi x).

Section Simulation.

(** [Number.prototype.toFixed] at one fractional digit. *)
Variable toFixed1 : number -> string.

(** The four bounds of the anomaly detection.  The component writes them
    as literals; [tick] below runs the detection at those literals. *)
Variable th : ThresholdConfig.

(** The body of [Object.keys(updated).forEach(station => ...)] for one
    station.  [alerts] is the array captured by the effect's closure;
    the result is the station object after its in-place updates and
    the alerts handed to [setAlerts(prev => [...prev, alert])]. *)
Definition forEach_body (alerts : list Alert.t) (station : string)
    (w : Effects) (s : Station.t) : Station.t * list Alert.t :=
  let voltageVariation :=
    mul (sub (random_voltage w) (decimal 5 1)) (of_Z 2) in
  let currentVariation :=
    mul (sub (random_current w) (decimal 5 1)) (decimal 5 1) in
  let voltage := clamp (of_Z 215) (of_Z 225)
                   (add (Station.voltage s) voltageVariation) in
  let current := clamp (of_Z 14) (of_Z 16)
                   (add (Station.current s) currentVariation) in
  let newTrend :=
    slice_last 20
      (Station.trend s ++ [TrendPoint.mk voltage current (trend_clock w)]) in
  if lt voltage (voltage_min th) || gt voltage (voltage_max th) then
    (Station.mk voltage current Status.warning newTrend,
     match alertExists alerts station AlertType.voltage with
     | Some _ => []
     | None =>
         [Alert.mk (alert_now w) station AlertType.voltage
            ("Voltage anomaly detected: " ++ toFixed1 voltage ++ "V")
            (alert_clock w)]
     end)
  else if lt current (current_min th) || gt current (current_max th) then
    (Station.mk voltage current Status.warning newTrend,
     match alertExists alerts station AlertType.current with
     | Some _ => []
     | None =>
         [Alert.mk (alert_now w) station AlertType.current
            ("Current anomaly detected: " ++ toFixed1 current ++ "A")
            (alert_clock w)]
     end)
  else
    (Station.mk voltage current Status.normal newTrend, []).

(** The [forEach] over the keys, in order; the queued [setAlerts]
    updaters are collected in the order they were issued. *)
Fixpoint forEach (alerts : list Alert.t) (env : Env)
    (data : list (string * Station.t))
    : list (string * Station.t) * list Alert.t :=
  match data with
  | [] => ([], [])
  | (station, s) :: rest =>
      let (s', queued) := forEach_body alerts station (env station) s in
      let (rest', queued') := forEach alerts env rest in
      ((station, s') :: rest', queued ++ queued')
  end.

(** One firing of the interval callback: [setStationData(prev => ...)]
    followed by the queued [setAlerts] updaters, each run once.  The
    effect is re-installed whenever [alerts] changes, so the closure holds
    the alerts of the state the tick starts from; the duplicate check reads
    that array, not the alerts queued earlier in the same tick.  The
    station objects are shared between [prev] and [updated] and updated in
    place; the previous state is not kept, so passing the new state on is
    all there is to it. *)
Definition tick_with (env : Env) (st : State) : State :=
  let (updated, queued) := forEach (alerts st) env (stationData st) in
  {| stationData := updated; alerts := alerts st ++ queued |}.

End Simulation.

(** The component's tick: the detection bounds are its literals. *)
Definition tick (toFixed1 : number -> string) : Env -> State -> State :=
  tick_with toFixed1 default_thresholds.

(** Successive ticks, oldest first. *)
Fixpoint run (toFixed1 : number -> string) (envs : list Env) (st : State)
    : State :=
  match envs with
  | [] => st
  | env :: later => run toFixed1 later (tick toFixed1 env st)
  end.

(** The reading a station holds after its update: the two assignments
    at the head of the [forEach] body. *)
Definition next_voltage (w : Effects) (s : Station.t) : number :=
  clamp (of_Z 215) (of_Z 225)
    (add (Station.voltage s)
         (mul (sub (random_voltage w) (decimal 5 1)) (of_Z 2))).

Definition next_current (w : Effects) (s : Station.t) : number :=
  clamp (of_Z 14) (of_Z 16)
    (add (Station.current s)
         (mul (sub (random_current w) (decimal 5 1)) (decimal 5 1))).

(** The physical envelope of a reading: [215 <= voltage <= 225] and
    [14 <= current <= 16]. *)
Definition in_envelope (s : Station.t) : bool :=
  le (of_Z 215) (Station.voltage s) && le (Station.voltage s) (of_Z 225)
  && le (of_Z 14) (Station.current s) && le (Station.current s) (of_Z 16).

(** [Math.random()] answers in [[0, 1)]. *)
Definition unit_draw (u : number) : bool :=
  le (of_Z 0) u && lt u (of_Z 1).

Definition unit_draws (env : Env) : Prop :=
  forall station,
    unit_draw (random_voltage (env station)) = true
    /\ unit_draw (random_current (env station)) = true.

(** The pair that the duplicate check of the detection looks up. *)
Definition key (a : Alert.t) : string * AlertType.t :=
  (Alert.station a, Alert.type a).

(** The React keys of the alert list on screen:
    [alerts.slice(-3).map(alert => <div key={alert.id} ...>)]. *)
Definition rendered_alert_keys (alerts : list Alert.t) : list Z :=
  map Alert.id (slice_last 3 alerts).

(** All alerts of a station and type, by the predicate of the duplicate
    check. *)
Definition alerts_for (station : string) (ty : AlertType.t)
    (alerts : list Alert.t) : list Alert.t :=
  filter (fun a => String.eqb (Alert.station a) station
                   && AlertType.eqb (Alert.type a) ty) alerts.

(** The two range tests of the detection, on a station's own reading. *)
Definition voltage_out (th : ThresholdConfig) (s : Station.t) : bool :=
  lt (Station.voltage s) (voltage_min th)
  || gt (Station.voltage s) (voltage_max th).

Definition current_out (th : ThresholdConfig) (s : Station.t) : bool :=
  lt (Station.current s) (current_min th)
  || gt (Station.current s) (current_max th).

(** The trend points pushed for station [code] along a run, oldest
    first: the reading the station holds after each tick, with the clock
    text read for it. *)
Fixpoint pushed (toFixed1 : number -> string) (code : string)
    (envs : list Env) (st : State) : list TrendPoint.t :=
  match envs with
  | [] => []
  | env :: later =>
      let st' := tick toFixed1 env st in
      match get code (stationData st') with
      | Some s =>
          [TrendPoint.mk (Station.voltage s) (Station.current s)
             (trend_clock (env code))]
      | None => []
      end ++ pushed toFixed1 code later st'
  end.

(** ** Station objects, property by property

    The record [Station.t] fixes the four properties of a station object.
    To see which properties the simulation creates, the same code is also
    embedded over objects as the engine has them: a list of own
    properties in creation order, on top of what every object literal
    inherits from [Object.prototype]. *)
Inductive Value : Type :=
| undefined
| num (n : number)
| str (s : string)
| points (trend : list TrendPoint.t)
| inherited (name : string).

Definition Object : Type := list (string * Value).

Fixpoint own (name : string) (obj : Object) : option Value :=
  match obj with
  | [] => None
  | (k, v) :: rest => if String.eqb k name then Some v else own name rest
  end.

(** The property names of [Object.prototype]. *)
Definition Object_prototype : list string :=
  ["constructor"; "__defineGetter__"; "__defineSetter__"; "hasOwnProperty";
   "__lookupGetter__"; "__lookupSetter__"; "isPrototypeOf";
   "propertyIsEnumerable"; "toString"; "valueOf"; "__proto__";
   "toLocaleString"]%string.

(** [obj.name] read. *)
Definition read (obj : Object) (name : string) : Value :=
  match own name obj with
  | Some v => v
  | None =>
      if existsb (String.eqb name) Object_prototype then inherited name
      else undefined
  end.

(** [obj.name = v]: an own property is overwritten in place, a new one
    is added after the others. *)
Fixpoint assign (name : string) (v : Value) (obj : Object) : Object :=
  match obj with
  | [] => [(name, v)]
  | (k, w) :: rest =>
      if String.eqb k name then (k, v) :: rest
      else (k, w) :: assign name v rest
  end.

(** [Object.keys(obj)]. *)
Definition keys (obj : Object) : list string := map fst obj.

(** The object literal [{ voltage: v, current: c, status: st, trend: t }]
    and the object of a record. *)
Definition object_literal (v c : number) (st : Status.t)
    (t : list TrendPoint.t) : Object :=
  [("voltage", num v); ("current", num c);
   ("status", str (Status.to_string st)); ("trend", points t)]%string.

Definition object_of (s : Station.t) : Object :=
  object_literal (Station.voltage s) (Station.current s) (Station.status s)
    (Station.trend s).

Definition as_number (v : Value) : option number :=
  match v with num n => Some n | _ => None end.

Definition as_points (v : Value) : option (list TrendPoint.t) :=
  match v with points t => Some t | _ => None end.

Definition bind {A B : Type} (x : option A) (f : A -> option B) : option B :=
  match x with Some a => f a | None => None end.

(** The body of the [forEach] callback over objects, statement by
    statement.  It is defined where the properties read hold what the
    operations expect, a number for [voltage] and [current] and an array
    for [trend]; elsewhere the result is [None]. *)
Definition forEach_body_object (toFixed1 : number -> string)
    (alerts : list Alert.t) (station : string) (w : Effects) (obj : Object)
    : option (Object * list Alert.t) :=
  let voltageVariation :=
    mul (sub (random_voltage w) (decimal 5 1)) (of_Z 2) in
  let currentVariation :=
    mul (sub (random_current w) (decimal 5 1)) (decimal 5 1) in
  bind (as_number (read obj "voltage")) (fun v0 =>
  let o1 :=
    assign "voltage"
      (num (Math_max (of_Z 215) (Math_min (of_Z 225) (add v0 voltageVariation))))
      obj in
  bind (as_number (read o1 "current")) (fun c0 =>
  let o2 :=
    assign "current"
      (num (Math_max (of_Z 14) (Math_min (of_Z 16) (add c0 currentVariation))))
      o1 in
  bind (as_points (read o2 "trend")) (fun t0 =>
  bind (as_number (read o2 "voltage")) (fun v =>
  bind (as_number (read o2 "current")) (fun c =>
  let newTrend := slice_last 20 (t0 ++ [TrendPoint.mk v c (trend_clock w)]) in
  let o3 := assign "trend" (points newTrend) o2 in
  if lt v (of_Z 216) || gt v (of_Z 224) then
    Some (assign "status" (str "warning") o3,
          match alertExists alerts station AlertType.voltage with
          | Some _ => []
          | None =>
              [Alert.mk (alert_now w) station AlertType.voltage
                 ("Voltage anomaly detected: " ++ toFixed1 v ++ "V")
                 (alert_clock w)]
          end)
  else if lt c (decimal 145 1) || gt c (decimal 158 1) then
    Some (assign "status" (str "warning") o3,
          match alertExists alerts station AlertType.current with
          | Some _ => []
          | None =>
              [Alert.mk (alert_now w) station AlertType.current
                 ("Current anomaly detected: " ++ toFixed1 c ++ "A")
                 (alert_clock w)]
          end)
  else
    Some (assign "status" (str "normal") o3, [])))))).

Fixpoint forEach_object (toFixed1 : number -> string)
    (alerts : list Alert.t) (env : Env) (data : list (string * Object))
    : option (list (string * Object) * list Alert.t) :=
  match data with
  | [] => Some ([], [])
  | (station, obj) :: rest =>
      bind (forEach_body_object toFixed1 alerts station (env station) obj)
        (fun head =>
      bind (forEach_object toFixed1 alerts env rest) (fun tail =>
      Some ((station, fst head) :: fst tail, snd head ++ snd tail)))
  end.

(** The state over objects, one tick and a run of ticks. *)
Definition ObjectState : Type := list (string * Object) * list Alert.t.

Definition tick_object (toFixed1 : number -> string) (env : Env)
    (st : ObjectState) : option ObjectState :=
  bind (forEach_object toFixed1 (snd st) env (fst st)) (fun result =>
  Some (fst result, snd st ++ snd result)).

Fixpoint run_object (toFixed1 : number -> string) (envs : list Env)
    (st : ObjectState) : option ObjectState :=
  match envs with
  | [] => Some st
  | env :: later =>
      bind (tick_object toFixed1 env st) (run_object toFixed1 later)
  end.

Definition objects_of (st : State) : ObjectState :=
  (map (fun entry : string * Station.t => (fst entry, object_of (snd entry)))
     (stationData st),
   alerts st).

(** The initial state as the [useState] calls write it. *)
Definition initial_objects : ObjectState :=
  ([("SIF-401", object_literal (of_Z 220) (decimal 152 1) Status.normal []);
    ("SIF-402", object_literal (of_Z 218) (decimal 148 1) Status.normal []);
    ("SIF-405", object_literal (of_Z 221) (decimal 155 1) Status.normal []);
    ("SIF-407", object_literal (of_Z 219) (decimal 151 1) Status.normal [])
   ]%string,
   []).

(** Bounds wider than the ones the detection uses. *)
Definition wide_thresholds : ThresholdConfig :=
  {| voltage_min := of_Z 200;
     voltage_max := of_Z 230;
     current_min := of_Z 10;
     current_max := of_Z 20 |}.

(** ** Sample environments

    Draws and clock readings used to run the simulation on concrete
    inputs.  A draw of [0.5] leaves a measurement where it is, [0.9]
    raises the current by [0.2], [0.1] lowers it by [0.2], and [0.99]
    raises the voltage by [0.98]. *)
Definition effects (draw_voltage draw_current : number) : Effects :=
  {| random_voltage := draw_voltage;
     random_current := draw_current;
     trend_clock := "12:00:00";
     alert_now := 1700000000000;
     alert_clock := "12:00:00" |}.

Definition steady : Env := fun _ => effects (decimal 5 1) (decimal 5 1).
Definition current_up : Env := fun _ => effects (decimal 5 1) (decimal 9 1).
Definition current_down : Env := fun _ => effects (decimal 5 1) (decimal 1 1).
Definition voltage_up : Env := fun _ => effects (decimal 99 2) (decimal 5 1).

(** The answers of [env], with every [Date.now()] of the tick reading
    [t]. *)
Definition at_time (t : Z) (env : Env) : Env :=
  fun station =>
    {| random_voltage := random_voltage (env station);
       random_current := random_current (env station);
       trend_clock := trend_clock (env station);
       alert_now := t;
       alert_clock := alert_clock (env station) |}.

(** The clock moves on from one firing of the interval to the next: the
    [Date.now()] readings of the first tick are at or after [bound], and
    those of each later tick are after all readings of the tick before
    it. *)
Fixpoint clock_advances (bound : Z) (envs : list Env) : Prop :=
  match envs with
  | [] => True
  | env :: later =>
      exists next,
        (forall station, (bound <= alert_now (env station) < next)%Z)
        /\ clock_advances next later
  end.

(** The current of SIF-402 sinks while the others rise. *)
Definition diverging : Env :=
  fun station =>
    if String.eqb station "SIF-402"
    then effects (decimal 5 1) (decimal 1 1)
    else effects (decimal 5 1) (decimal 9 1).

(** A reading with both measurements close to their upper limits. *)
Definition hot_station : Station.t :=
  Station.mk (decimal 2249 1) (decimal 1595 2) Status.normal [].

(** ** The chat panel *)

Module Role.
Inductive t : Set := user | assistant.
End Role.

Record Message : Type := mkMessage { role : Role.t; content : string }.

Record Chat : Type := mkChat
  { chatMessages : list Message;
    inputMessage : string;
    isLoading : bool }.

Definition apology : string :=
  "I apologize, but I encountered an error processing your request. Please try again.".

Section ChatPanel.

Variable toFixed1 : number -> string.

(** [window.claude.complete] is a remote completion service.  [Service]
    is whatever the service's answer depends on besides the prompt;
    [None] stands for a rejected promise. *)
Variable Service : Type.
Variable complete : Service -> string -> option string * Service.

Definition stationContext (data : list (string * Station.t)) : string :=
  join newline
    (map (fun entry : string * Station.t =>
            let (station, d) := entry in
            station ++ ": Voltage=" ++ toFixed1 (Station.voltage d)
              ++ "V, Current=" ++ toFixed1 (Station.current d)
              ++ "A, Status=" ++ Status.to_string (Station.status d))%string
         data).

Definition activeAlerts (alerts : list Alert.t) : string :=
  match alerts with
  | [] => "None"%string
  | _ => join ", " (map Alert.message alerts)
  end.

Definition indent : string := "      ".

Definition prompt (st : State) (userMessage : string) : string :=
  ("You are a helpful assistant for the SIF-400 Digital Twin monitoring system."
     ++ newline ++ indent ++ "Current station readings:"
     ++ newline ++ indent ++ stationContext (stationData st)
     ++ newline
     ++ newline ++ indent ++ "Active alerts: " ++ activeAlerts (alerts st)
     ++ newline
     ++ newline ++ indent ++ "User question: " ++ userMessage
     ++ newline
     ++ newline ++ indent
     ++ "Please provide a concise, helpful response about the voltage and current status of the stations.")%string.

(** What the prompt lets the service see of a snapshot: per station
    its code, both measurements at one fractional digit and its status,
    and the messages of the alerts. *)
Definition shown (st : State)
    : list (string * string * string * Status.t) * list string :=
  (map (fun entry : string * Station.t =>
          (fst entry, toFixed1 (Station.voltage (snd entry)),
           toFixed1 (Station.current (snd entry)),
           Station.status (snd entry)))
       (stationData st),
   map Alert.message (alerts st)).

(** [handleChatSubmit], from the click to the end of its [finally]
    block.  The reply shown is the service's answer, or the apology when
    the call fails. *)
Definition handleChatSubmit (st : State) (svc : Service) (ui : Chat)
    : Chat * Service :=
  if blank (inputMessage ui) || isLoading ui then (ui, svc)
  else
    let userMessage := inputMessage ui in
    let (answer, svc') := complete svc (prompt st userMessage) in
    let reply :=
      match answer with
      | Some response => response
      | None => apology
      end in
    ({| chatMessages :=
          chatMessages ui
            ++ [mkMessage Role.user userMessage;
                mkMessage Role.assistant reply];
        inputMessage := EmptyString;
        isLoading := false |},
     svc').

End ChatPanel.

Arguments handleChatSubmit toFixed1 {Service} complete st svc ui.

(** One line of the station context, from what is shown of a station. *)
Definition render (v : string * string * string * Status.t) : string :=
  let '(station, voltage, current, status) := v in
  (station ++ ": Voltage=" ++ voltage ++ "V, Current=" ++ current
     ++ "A, Status=" ++ Status.to_string status)%string.

(** A chat panel in which [question] has been typed. *)
Definition asking (question : string) : Chat :=
  {| chatMessages := []; inputMessage := question; isLoading := false |}.

(** A completion service whose answer depends on whether it has been
    asked before, not on the prompt. *)
Definition moody (asked : bool) (prompt : string) : option string * bool :=
  (Some (if asked then "SIF-402 is running low."
         else "All stations are normal.")%string,
   true).

(** The initial state with the voltage of SIF-401 a hundredth higher and
    one point already in its trend. *)
Definition nudged_state : State :=
  {| stationData :=
       ("SIF-401"%string,
        Station.mk (decimal 22001 2) (decimal 152 1) Status.normal
          [TrendPoint.mk (of_Z 220) (decimal 152 1) "11:59:58"])
         :: tl initial_stationData;
     alerts := [] |}.

(** ** What the page shows of the simulation *)

(** The bars of a station card:
    [data.trend.slice(-10).map(point => ((point.voltage - 215) / 10) * 100)],
    one height in percent per bar. *)
Definition bar_height (point : TrendPoint.t) : number :=
  mul (div (sub (TrendPoint.voltage point) (of_Z 215)) (of_Z 10)) (of_Z 100).

Definition trend_bars (data : Station.t) : list number :=
  map bar_height (slice_last 10 (Station.trend data)).

(** The alerts section: [alerts.length > 0 && ...] around
    [alerts.slice(-3).map(alert => ...)]; [None] when nothing is
    rendered. *)
Definition alerts_section (alerts : list Alert.t) : option (list Alert.t) :=
  match alerts with
  | [] => None
  | _ => Some (slice_last 3 alerts)
  end.

(** A trend point inside the physical envelope. *)
Definition point_in_envelope (point : TrendPoint.t) : bool :=
  le (of_Z 215) (TrendPoint.voltage point)
  && le (TrendPoint.voltage point) (of_Z 225)
  && le (of_Z 14) (TrendPoint.current point)
  && le (TrendPoint.current point) (of_Z 16).

(** The texts of the two kinds of alert. *)
Definition voltage_text (toFixed1 : number -> string) (s : Station.t)
    : string :=
  "Voltage anomaly detected: " ++ toFixed1 (Station.voltage s) ++ "V".

Definition current_text (toFixed1 : number -> string) (s : Station.t)
    : string :=
  "Current anomaly detected: " ++ toFixed1 (Station.current s) ++ "A".

(** ** A conversation

    [onChange] of the input stores what is typed
    ([setInputMessage(e.target.value)]); a turn is a text typed and
    submitted while the simulation is in some state. *)
Definition type_message (text : string) (ui : Chat) : Chat :=
  {| chatMessages := chatMessages ui;
     inputMessage := text;
     isLoading := isLoading ui |}.

Fixpoint chat_session (toFixed1 : number -> string) (Service : Type)
    (complete : Service -> string -> option string * Service)
    (turns : list (State * string)) (svc : Service) (ui : Chat)
    : Chat * Service :=
  match turns with
  | [] => (ui, svc)
  | (st, text) :: later =>
      let (ui', svc') :=
        handleChatSubmit toFixed1 complete st svc (type_message text ui) in
      chat_session toFixed1 Service complete later svc' ui'
  end.

Arguments chat_session toFixed1 {Service} complete turns svc ui.

(** The texts of the messages of one role, in order. *)
Definition said_by (r : Role.t) (messages : list Message) : list string :=
  map content
    (filter (fun m => match role m, r with
                      | Role.user, Role.user
                      | Role.assistant, Role.assistant => true
                      | _, _ => false
                      end) messages).

(** The turns that are not dropped for being blank. *)
Definition accepted (turns : list (State * string)) : list string :=
  filter (fun text => negb (blank text)) (map snd turns).

(** A transcript in which each question is followed by its reply. *)
Fixpoint exchange (questions replies : list string) : list Message :=
  match questions, replies with
  | question :: questions', reply :: replies' =>
      mkMessage Role.user question
        :: mkMessage Role.assistant reply :: exchange questions' replies'
  | _, _ => []
  end.

(** A service that always fails. *)
Definition silent (svc : unit) (prompt : string) : option string * unit :=
  (None, tt).

End Sif.

(* ------------------------------------------------------------------ *)
(** * Part 3. The threshold panel of the server-backed variant         *)
(* ------------------------------------------------------------------ *)

Module Native.

(** The state of the threshold panel.  [crashed] records that an updater
    has thrown while the component was rendering: the page is then taken
    down, nothing is rendered or handled any more, and the other fields no
    longer matter. *)
Record Panel : Type := mkPanel
  { thresholds : ThresholdConfig;
    tempThresholds : ThresholdConfig;
    showThresholdConfig : bool;
    chatMessages : list Sif.Message;
    crashed : bool }.

(** Outcome of [fetch(API_BASE/thresholds, {method: 'PUT', ...})]:
    - [ok data_thresholds]: an ok response whose body has a [thresholds]
      member, a configuration of four numbers;
    - [ok_without_thresholds]: an ok response whose body has no
      [thresholds] member, or [null] for it, such as the bare
      configuration;
    - [rejected error]: any other status, [error] being the text that the
      [error] member of its body is rendered as;
    - [rejected_without_body]: any other status, with the body [null];
    - [unreachable]: whatever throws inside the [try] block: the request
      fails, the body is not JSON, or the body of an ok response is
      [null]. *)
Inductive Response : Type :=
| ok (data_thresholds : ThresholdConfig)
| ok_without_thresholds
| rejected (error : string)
| rejected_without_body
| unreachable.

(** The responses on which the updater handed to [setChatMessages]
    throws. *)
Definition throws (response : Response) : bool :=
  match response with
  | ok_without_thresholds | rejected_without_body => true
  | _ => false
  end.

(** A request with the voltage bounds the wrong way round. *)
Definition inverted_voltage : ThresholdConfig :=
  {| voltage_min := of_Z 230;
     voltage_max := of_Z 220;
     current_min := decimal 145 1;
     current_max := decimal 158 1 |}.

Definition editing (request : ThresholdConfig) : Panel :=
  {| thresholds := default_thresholds;
     tempThresholds := request;
     showThresholdConfig := true;
     chatMessages := [];
     crashed := false |}.

Section Panel.

(** Number-to-string conversion of template literals. *)
Variable toString : number -> string.

(** The text the server puts in the [error] field of a refusal. *)
Variable describe : ThresholdConfig -> string.

(** Modelled from the spec: the handler of [PUT thresholds] (the Flask
    server is not part of the sources).  It refuses the update, leaving
    the configuration as it was, if [min >= max] for either pair, and
    otherwise replaces the configuration and returns it. *)
Definition put_thresholds (body current : ThresholdConfig)
    : Response * ThresholdConfig :=
  if ge (voltage_min body) (voltage_max body)
     || ge (current_min body) (current_max body)
  then (rejected (describe body), current)
  else (ok body, body).

Definition success_text (t : ThresholdConfig) : string :=
  ("✅ Threshold configuration updated successfully!" ++ newline ++ newline
     ++ "New thresholds:" ++ newline
     ++ "• Voltage: " ++ toString (voltage_min t) ++ "V - "
     ++ toString (voltage_max t) ++ "V" ++ newline
     ++ "• Current: " ++ toString (current_min t) ++ "A - "
     ++ toString (current_max t) ++ "A")%string.

(** [updateThresholds] once the response is known.  On an ok body
    without [thresholds] the handler stores [undefined] as the thresholds
    and closes the panel, and the updater it hands to [setChatMessages]
    throws on [data.thresholds.voltage_min] when the component renders:
    no message is added and the page goes down.  So it does on a refusal
    whose body is [null], where the updater throws on [error.error]. *)
Definition updateThresholds (response : Response) (p : Panel) : Panel :=
  match response with
  | ok data_thresholds =>
      {| thresholds := data_thresholds;
         tempThresholds := tempThresholds p;
         showThresholdConfig := false;
         chatMessages :=
           chatMessages p
             ++ [Sif.mkMessage Sif.Role.assistant
                   (success_text data_thresholds)];
         crashed := crashed p |}
  | ok_without_thresholds =>
      {| thresholds := thresholds p;
         tempThresholds := tempThresholds p;
         showThresholdConfig := false;
         chatMessages := chatMessages p;
         crashed := true |}
  | rejected error =>
      {| thresholds := thresholds p;
         tempThresholds := tempThresholds p;
         showThresholdConfig := showThresholdConfig p;
         chatMessages :=
           chatMessages p
             ++ [Sif.mkMessage Sif.Role.assistant
                   ("❌ Error updating thresholds: " ++ error)];
         crashed := crashed p |}
  | rejected_without_body =>
      {| thresholds := thresholds p;
         tempThresholds := tempThresholds p;
         showThresholdConfig := showThresholdConfig p;
         chatMessages := chatMessages p;
         crashed := true |}
  | unreachable =>
      {| thresholds := thresholds p;
         tempThresholds := tempThresholds p;
         showThresholdConfig := showThresholdConfig p;
         chatMessages :=
           chatMessages p
             ++ [Sif.mkMessage Sif.Role.assistant
                   "❌ Failed to update thresholds. Please check your connection."];
         crashed := crashed p |}
  end.

(** Pressing "Apply Thresholds" against a reachable server holding
    [config]: the panel sends [tempThresholds] and handles the answer. *)
Definition apply_thresholds (config : ThresholdConfig) (p : Panel)
    : ThresholdConfig * Panel :=
  let (response, config') := put_thresholds (tempThresholds p) config in
  (config', updateThresholds response p).

End Panel.

(** ** The sliders

    Each slider calls [handleSliderChange] with its own field name, one
    of the four below, and the text of its value. *)
Inductive Field : Set :=
| voltage_min_field
| voltage_max_field
| current_min_field
| current_max_field.

Definition read (field : Field) (t : ThresholdConfig) : number :=
  match field with
  | voltage_min_field => voltage_min t
  | voltage_max_field => voltage_max t
  | current_min_field => current_min t
  | current_max_field => current_max t
  end.

(** [{...prev, [field]: x}]. *)
Definition write (field : Field) (x : number) (t : ThresholdConfig)
    : ThresholdConfig :=
  match field with
  | voltage_min_field =>
      mkThresholds x (voltage_max t) (current_min t) (current_max t)
  | voltage_max_field =>
      mkThresholds (voltage_min t) x (current_min t) (current_max t)
  | current_min_field =>
      mkThresholds (voltage_min t) (voltage_max t) x (current_max t)
  | current_max_field =>
      mkThresholds (voltage_min t) (voltage_max t) (current_min t) x
  end.

(** [setTempThresholds({ ...thresholds })]. *)
Definition resetThresholds (p : Panel) : Panel :=
  {| thresholds := thresholds p;
     tempThresholds := thresholds p;
     showThresholdConfig := showThresholdConfig p;
     chatMessages := chatMessages p;
     crashed := crashed p |}.

(** [setShowThresholdConfig(!showThresholdConfig)]. *)
Definition toggleThresholdConfig (p : Panel) : Panel :=
  {| thresholds := thresholds p;
     tempThresholds := tempThresholds p;
     showThresholdConfig := negb (showThresholdConfig p);
     chatMessages := chatMessages p;
     crashed := crashed p |}.

(** [fetchThresholds] once its request has settled: [Some data] for an ok
    response, whose body is a configuration of four numbers, [None] for
    any other outcome, which changes nothing. *)
Definition fetchThresholds (response : option ThresholdConfig) (p : Panel)
    : Panel :=
  match response with
  | Some data =>
      {| thresholds := data;
         tempThresholds := data;
         showThresholdConfig := showThresholdConfig p;
         chatMessages := chatMessages p;
         crashed := crashed p |}
  | None => p
  end.

(** What can happen to the panel. *)
Inductive Event : Type :=
| slide (field : Field) (value : string)
| reset
| toggle
| applied (response : Response)
| fetched (response : option ThresholdConfig).

(** The events that take the page down. *)
Definition fatal (e : Event) : bool :=
  match e with
  | applied response => throws response
  | _ => false
  end.

Section PanelEvents.

Variable toString : number -> string.

(** [parseFloat]. *)
Variable parseFloat : string -> number.

Definition handleSliderChange (field : Field) (value : string) (p : Panel)
    : Panel :=
  {| thresholds := thresholds p;
     tempThresholds := write field (parseFloat value) (tempThresholds p);
     showThresholdConfig := showThresholdConfig p;
     chatMessages := chatMessages p;
     crashed := crashed p |}.

(** An event reaches its handler only while the page is up. *)
Definition handle (e : Event) (p : Panel) : Panel :=
  if crashed p then p
  else
    match e with
    | slide field value => handleSliderChange field value p
    | reset => resetThresholds p
    | toggle => toggleThresholdConfig p
    | applied response => updateThresholds toString response p
    | fetched response => fetchThresholds response p
    end.

Fixpoint handle_all (events : list Event) (p : Panel) : Panel :=
  match events with
  | [] => p
  | e :: later => handle_all later (handle e p)
  end.

End PanelEvents.

(** The configuration the server confirmed last, [t] if it confirmed
    none. *)
Fixpoint last_confirmed (events : list Event) (t : ThresholdConfig)
    : ThresholdConfig :=
  match events with
  | [] => t
  | applied (ok data) :: later => last_confirmed later data
  | fetched (Some data) :: later => last_confirmed later data
  | _ :: later => last_confirmed later t
  end.

(** The number of presses of "Apply Thresholds". *)
Fixpoint applications (events : list Event) : nat :=
  match events with
  | [] => 0
  | applied _ :: later => S (applications later)
  | _ :: later => applications later
  end.

(** ** The bars of the server-backed station card

    [data.trend && data.trend.slice(-10).map(point => ...)], each bar at
    [Math.max(height, 5)] percent. *)
Definition bar_height (point : TrendPoint.t) : number :=
  Math_max
    (mul (div (sub (TrendPoint.voltage point) (of_Z 215)) (of_Z 10))
       (of_Z 100))
    (of_Z 5).

Definition trend_bars (trend : option (list TrendPoint.t)) : list number :=
  match trend with
  | Some points => map bar_height (slice_last 10 points)
  | None => []
  end.

(** ** Polling the server

    The page polls [current-status] and [alerts] every two seconds.
    [fetchStationStatus] stores the body of an ok response and sets the
    connection status to ['connected']; any other outcome sets it to
    ['error'] and keeps the data it had.  [fetchAlerts] stores the body of
    an ok response and does nothing otherwise.  The handlers store the
    bodies as they come, so their types are left open. *)
Module ConnectionStatus.
Inductive t : Set := disconnected | connected | error.
End ConnectionStatus.

Section Polling.

Variable Snapshot : Type.
Variable ServerAlert : Type.

Record Dashboard : Type := mkDashboard
  { stationData : Snapshot;
    alerts : list ServerAlert;
    connectionStatus : ConnectionStatus.t }.

Inductive Poll : Type :=
| status_ok (data : Snapshot)
| status_failed
| alerts_ok (data : list ServerAlert)
| alerts_failed.

Definition settle (poll : Poll) (d : Dashboard) : Dashboard :=
  match poll with
  | status_ok data =>
      {| stationData := data;
         alerts := alerts d;
         connectionStatus := ConnectionStatus.connected |}
  | status_failed =>
      {| stationData := stationData d;
         alerts := alerts d;
         connectionStatus := ConnectionStatus.error |}
  | alerts_ok data =>
      {| stationData := stationData d;
         alerts := data;
         connectionStatus := connectionStatus d |}
  | alerts_failed => d
  end.

Fixpoint settle_all (polls : list Poll) (d : Dashboard) : Dashboard :=
  match polls with
  | [] => d
  | poll :: later => settle_all later (settle poll d)
  end.

(** The station cards are rendered only while ['connected']. *)
Definition cards (d : Dashboard) : option Snapshot :=
  match connectionStatus d with
  | ConnectionStatus.connected => Some (stationData d)
  | _ => None
  end.

(** The alerts section: [alerts.length > 0 && ...] around
    [alerts.slice(0, 5).map(alert => ...)]. *)
Definition alerts_section (d : Dashboard) : option (list ServerAlert) :=
  match alerts d with
  | [] => None
  | _ => Some (firstn 5 (alerts d))
  end.

(** What the latest status poll among [polls] puts on the page: the body
    of an ok response, nothing after a failure, and [shown] if no status
    poll is among them. *)
Fixpoint latest_status (polls : list Poll) (shown : option Snapshot)
    : option Snapshot :=
  match polls with
  | [] => shown
  | status_ok data :: later => latest_status later (Some data)
  | status_failed :: later => latest_status later None
  | _ :: later => latest_status later shown
  end.

(** The body of the latest ok alerts poll among [polls], if any. *)
Fixpoint latest_alerts (polls : list Poll) (before : list ServerAlert)
    : list ServerAlert :=
  match polls with
  | [] => before
  | alerts_ok data :: later => latest_alerts later data
  | _ :: later => latest_alerts later before
  end.

End Polling.

Arguments status_ok {Snapshot ServerAlert} data.
Arguments status_failed {Snapshot ServerAlert}.
Arguments alerts_ok {Snapshot ServerAlert} data.
Arguments alerts_failed {Snapshot ServerAlert}.
Arguments mkDashboard {Snapshot ServerAlert} _ _ _.
Arguments stationData {Snapshot ServerAlert} _.
Arguments alerts {Snapshot ServerAlert} _.
Arguments connectionStatus {Snapshot ServerAlert} _.
Arguments settle {Snapshot ServerAlert} poll d.
Arguments settle_all {Snapshot ServerAlert} polls d.
Arguments cards {Snapshot ServerAlert} d.
Arguments alerts_section {Snapshot ServerAlert} d.
Arguments latest_status {Snapshot ServerAlert} polls shown.
Arguments latest_alerts {Snapshot ServerAlert} polls before.

End Native.

(* ------------------------------------------------------------------ *)
(** * Part 4. Facts about numbers                                      *)
(* ------------------------------------------------------------------ *)

Section Rounding.

Variables p e : Z.

Lemma iter_pos_invariant (A : Type) (P : A -> Prop) (f : A -> A) :
  (forall x, P x -> P (f x)) ->
  forall n x, P x -> P (iter_pos f n x).
Proof.
  intros Hf n; induction n as [n IH | n IH | ]; intros x Hx; simpl; auto.
Qed.

Lemma shr_1_nonneg mrs : (0 <= shr_m mrs)%Z -> (0 <= shr_m (shr_1 mrs))%Z.
Proof.
  destruct mrs as [m r s]; simpl.
  destruct m as [ | [q | q | ] | q]; simpl; lia.
Qed.

Lemma shr_nonneg mrs ex n :
  (0 <= shr_m mrs)%Z -> (0 <= shr_m (fst (shr mrs ex n)))%Z.
Proof.
  intros H; destruct n as [ | n | n]; simpl; auto.
  apply (iter_pos_invariant _ (fun r => (0 <= shr_m r)%Z)); auto.
  exact shr_1_nonneg.
Qed.

Lemma shr_fexp_nonneg m ex l :
  (0 <= m)%Z -> (0 <= shr_m (fst (shr_fexp p e m ex l)))%Z.
Proof.
  intros H; unfold shr_fexp; apply shr_nonneg.
  destruct l as [ | [ | | ]]; simpl; exact H.
Qed.

Lemma round_nearest_even_nonneg m l :
  (0 <= m)%Z -> (0 <= round_nearest_even m l)%Z.
Proof.
  intros H; destruct l as [ | [ | | ]]; simpl; try lia.
  destruct (Z.even m); lia.
Qed.

(** Rounding a non-negative significand never produces NaN. *)
Lemma binary_round_aux_not_nan sx mx ex lx :
  (0 <= mx)%Z -> isNaN (binary_round_aux p e sx mx ex lx) = false.
Proof.
  intros H; unfold binary_round_aux.
  pose proof (shr_fexp_nonneg mx ex lx H) as H1.
  destruct (shr_fexp p e mx ex lx) as [mrs' e']; simpl in H1.
  pose proof (shr_fexp_nonneg _ e' loc_Exact
                (round_nearest_even_nonneg _ (loc_of_shr_record mrs') H1))
    as H2.
  destruct (shr_fexp p e _ e' loc_Exact) as [mrs'' e'']; simpl in H2.
  destruct (shr_m mrs'') as [ | q | q]; try reflexivity; try lia.
  destruct (Z.leb e'' (e - p)); reflexivity.
Qed.

Lemma binary_round_not_nan sx mx ex :
  isNaN (binary_round p e sx mx ex) = false.
Proof.
  unfold binary_round.
  destruct (shl_align mx ex _) as [mz ez].
  apply binary_round_aux_not_nan; lia.
Qed.

Lemma binary_normalize_not_nan m ex sz :
  isNaN (binary_normalize p e m ex sz) = false.
Proof.
  destruct m; simpl; auto using binary_round_not_nan.
Qed.

End Rounding.

Lemma finite_not_nan x : finite x = true -> isNaN x = false.
Proof. destruct x; simpl; congruence. Qed.

Lemma le_not_nan a b : le a b = true -> isNaN a = false /\ isNaN b = false.
Proof.
  unfold le, SFleb; destruct a, b; simpl; intros H; split;
    solve [reflexivity | discriminate H].
Qed.

Lemma lt_le a b : lt a b = true -> le a b = true.
Proof.
  unfold lt, le, SFltb, SFleb.
  destruct (SFcompare a b) as [[ | | ] | ]; congruence.
Qed.

Lemma le_refl a : isNaN a = false -> le a a = true.
Proof.
  unfold le, SFleb; destruct a as [s | s | | s m ex]; simpl;
    try solve [reflexivity | discriminate]; intros _.
  - destruct s; reflexivity.
  - rewrite Z.compare_refl.
    change (Pos.compare_cont Eq m m) with (Pos.compare m m).
    rewrite Pos.compare_refl; destruct s; reflexivity.
Qed.

(** A value between two finite bounds is finite. *)
Lemma between_finite lo hi x :
  finite lo = true -> finite hi = true ->
  le lo x = true -> le x hi = true -> finite x = true.
Proof.
  unfold le, SFleb.
  destruct lo, hi; simpl; try discriminate; intros _ _;
    destruct x as [ | [ | ] | | ]; simpl; try reflexivity;
    try discriminate; try (destruct s; discriminate);
    try (destruct s0; discriminate).
Qed.

Lemma add_not_nan a b :
  finite a = true -> isNaN b = false -> isNaN (add a b) = false.
Proof.
  unfold add; destruct a, b; simpl; try discriminate; intros _ _;
    try reflexivity.
  - destruct s, s0; reflexivity.
  - apply binary_normalize_not_nan.
Qed.

Lemma sub_not_nan a b :
  finite a = true -> finite b = true -> isNaN (sub a b) = false.
Proof.
  unfold sub; destruct a, b; simpl; try discriminate; intros _ _;
    try reflexivity.
  - destruct s, s0; reflexivity.
  - apply binary_normalize_not_nan.
Qed.

Lemma mul_not_nan a b :
  isNaN a = false -> nonzero_finite b = true -> isNaN (mul a b) = false.
Proof.
  unfold mul; destruct a, b; simpl; try discriminate; intros _ _;
    try reflexivity.
  apply binary_round_aux_not_nan; lia.
Qed.

(** [Math.min] and [Math.max] of two numbers that are not NaN return one
    of them, the right one for the order. *)
Lemma Math_min_spec hi x :
  isNaN hi = false -> isNaN x = false ->
  isNaN (Math_min hi x) = false /\ le (Math_min hi x) hi = true.
Proof.
  intros Hhi Hx; unfold Math_min; rewrite Hhi, Hx; simpl.
  assert (E : min_scan pos_infinity hi = hi).
  { unfold min_scan, pos_infinity, lt, SFltb.
    destruct hi as [[ | ] | [ | ] | | [ | ] ? ?]; simpl; try reflexivity;
      discriminate. }
  rewrite E; unfold min_scan.
  destruct (is_neg_zero x && is_pos_zero hi) eqn:Z0.
  - split; [exact Hx | ].
    destruct x as [[ | ] | | | ]; try discriminate.
    destruct hi as [[ | ] | | | ]; try discriminate; reflexivity.
  - destruct (lt x hi) eqn:L.
    + split; [exact Hx | apply lt_le; exact L].
    + split; [exact Hhi | apply le_refl; exact Hhi].
Qed.

Lemma Math_max_spec lo m :
  isNaN lo = false -> isNaN m = false ->
  le lo (Math_max lo m) = true /\
  (Math_max lo m = lo \/ Math_max lo m = m).
Proof.
  intros Hlo Hm; unfold Math_max; rewrite Hlo, Hm; simpl.
  assert (E : max_scan neg_infinity lo = lo).
  { unfold max_scan, neg_infinity, gt, SFltb.
    destruct lo as [[ | ] | [ | ] | | [ | ] ? ?]; simpl; try reflexivity;
      discriminate. }
  rewrite E; unfold max_scan.
  destruct (is_pos_zero m && is_neg_zero lo) eqn:Z0.
  - split; [ | right; reflexivity].
    destruct m as [[ | ] | | | ]; try discriminate.
    destruct lo as [[ | ] | | | ]; try discriminate; reflexivity.
  - destruct (gt m lo) eqn:G.
    + split; [apply lt_le; exact G | right; reflexivity].
    + split; [apply le_refl; exact Hlo | left; reflexivity].
Qed.

(** The clamp lands between its bounds whenever the clamped value is a
    number. *)
Lemma clamp_between lo hi x :
  le lo hi = true -> isNaN x = false ->
  le lo (Sif.clamp lo hi x) = true /\ le (Sif.clamp lo hi x) hi = true.
Proof.
  intros Hb Hx; destruct (le_not_nan _ _ Hb) as [Hlo Hhi].
  destruct (Math_min_spec hi x Hhi Hx) as [Hm Hmle].
  destruct (Math_max_spec lo (Math_min hi x) Hlo Hm) as [Hge [E | E]];
    unfold Sif.clamp; split; auto; rewrite E; assumption.
Qed.

(* ------------------------------------------------------------------ *)
(** * Part 5. Facts about one tick                                     *)
(* ------------------------------------------------------------------ *)

Section TickFacts.

Variable toFixed1 : number -> string.
Variable th : ThresholdConfig.

Lemma forEach_body_reading alerts station w s :
  let s' := fst (Sif.forEach_body toFixed1 th alerts station w s) in
  Station.voltage s' = Sif.next_voltage w s
  /\ Station.current s' = Sif.next_current w s
  /\ Station.trend s'
     = slice_last 20
         (Station.trend s
            ++ [TrendPoint.mk (Sif.next_voltage w s) (Sif.next_current w s)
                  (Sif.trend_clock w)]).
Proof.
  unfold Sif.forEach_body, Sif.next_voltage, Sif.next_current.
  repeat match goal with
         | |- context [if ?c then _ else _] => destruct c
         end; simpl; auto.
Qed.

Lemma forEach_keys alerts env data :
  map fst (fst (Sif.forEach toFixed1 th alerts env data)) = map fst data.
Proof.
  induction data as [ | [k s] rest IH]; simpl; [reflexivity | ].
  destruct (Sif.forEach_body toFixed1 th alerts k (env k) s) as [s' q].
  destruct (Sif.forEach toFixed1 th alerts env rest) as [rest' q'].
  simpl in *; f_equal; exact IH.
Qed.

Lemma forEach_In alerts env data k s' :
  In (k, s') (fst (Sif.forEach toFixed1 th alerts env data)) ->
  exists s, In (k, s) data
            /\ s' = fst (Sif.forEach_body toFixed1 th alerts k (env k) s).
Proof.
  induction data as [ | [k0 s0] rest IH]; simpl; [tauto | ].
  destruct (Sif.forEach_body toFixed1 th alerts k0 (env k0) s0)
    as [s1 q] eqn:E.
  destruct (Sif.forEach toFixed1 th alerts env rest) as [rest' q'].
  simpl in *; intros [H | H].
  - inversion H; subst; exists s0; split; [left; reflexivity | ].
    rewrite E; reflexivity.
  - destruct (IH H) as [s [Hin Hs]]; exists s; auto.
Qed.

Lemma tick_with_stationData env st :
  Sif.stationData (Sif.tick_with toFixed1 th env st)
  = fst (Sif.forEach toFixed1 th (Sif.alerts st) env (Sif.stationData st)).
Proof.
  unfold Sif.tick_with.
  destruct (Sif.forEach _ _ _ _ _) as [u q]; reflexivity.
Qed.

Lemma tick_with_alerts env st :
  Sif.alerts (Sif.tick_with toFixed1 th env st)
  = (Sif.alerts st
       ++ snd (Sif.forEach toFixed1 th (Sif.alerts st) env
                 (Sif.stationData st)))%list.
Proof.
  unfold Sif.tick_with.
  destruct (Sif.forEach _ _ _ _ _) as [u q]; reflexivity.
Qed.

End TickFacts.

Lemma unit_draw_finite u : Sif.unit_draw u = true -> finite u = true.
Proof.
  unfold Sif.unit_draw; intros H; apply andb_prop in H; destruct H as [H0 H1].
  apply (between_finite (of_Z 0) (of_Z 1) u); auto using lt_le.
Qed.

(** The perturbation computed from a draw is a number, whatever the
    scale. *)
Lemma variation_not_nan u scale :
  Sif.unit_draw u = true -> nonzero_finite scale = true ->
  isNaN (mul (sub u (decimal 5 1)) scale) = false.
Proof.
  intros Hu Hs; apply mul_not_nan; [ | exact Hs].
  apply sub_not_nan; [apply unit_draw_finite; exact Hu | reflexivity].
Qed.

Lemma in_envelope_iff s :
  Sif.in_envelope s = true <->
  (le (of_Z 215) (Station.voltage s) = true
   /\ le (Station.voltage s) (of_Z 225) = true)
  /\ (le (of_Z 14) (Station.current s) = true
      /\ le (Station.current s) (of_Z 16) = true).
Proof.
  unfold Sif.in_envelope; rewrite !andb_true_iff; tauto.
Qed.

Lemma next_reading_in_envelope w s :
  Sif.in_envelope s = true ->
  Sif.unit_draw (Sif.random_voltage w) = true ->
  Sif.unit_draw (Sif.random_current w) = true ->
  (le (of_Z 215) (Sif.next_voltage w s) = true
   /\ le (Sif.next_voltage w s) (of_Z 225) = true)
  /\ (le (of_Z 14) (Sif.next_current w s) = true
      /\ le (Sif.next_current w s) (of_Z 16) = true).
Proof.
  intros Hs Hv Hc; apply in_envelope_iff in Hs; destruct Hs as [[V1 V2] [C1 C2]].
  split; apply clamp_between; try reflexivity; apply add_not_nan.
  - apply (between_finite (of_Z 215) (of_Z 225)); auto.
  - apply variation_not_nan; auto.
  - apply (between_finite (of_Z 14) (of_Z 16)); auto.
  - apply variation_not_nan; auto.
Qed.

Section Envelope.

Variable toFixed1 : number -> string.

Lemma tick_with_envelope th env st :
  Sif.unit_draws env ->
  (forall k s, In (k, s) (Sif.stationData st) -> Sif.in_envelope s = true) ->
  forall k s', In (k, s') (Sif.stationData (Sif.tick_with toFixed1 th env st)) ->
               Sif.in_envelope s' = true.
Proof.
  intros Henv Hst k s' Hin.
  rewrite tick_with_stationData in Hin.
  apply forEach_In in Hin; destruct Hin as [s [Hin ->]].
  destruct (Henv k) as [Hv Hc].
  destruct (forEach_body_reading toFixed1 th (Sif.alerts st) k (env k) s)
    as [Ev [Ec _]].
  apply in_envelope_iff; rewrite Ev, Ec.
  apply next_reading_in_envelope; eauto.
Qed.


End Envelope.

(* ------------------------------------------------------------------ *)
(** * Part 6. The trend buffer                                         *)
(* ------------------------------------------------------------------ *)

Section SliceLast.

Variable A : Type.
Implicit Types l : list A.

Lemma slice_last_short n l : List.length l <= n -> slice_last n l = l.
Proof.
  intros H; unfold slice_last.
  replace (List.length l - n) with 0 by lia; reflexivity.
Qed.

Lemma slice_last_length n l :
  List.length (slice_last n l) = Nat.min (List.length l) n.
Proof. unfold slice_last; rewrite length_skipn; lia. Qed.

(** Only the last [n] elements of a buffer matter for the last [n]
    elements of its extension. *)
Lemma slice_last_app n l l' :
  slice_last n (slice_last n l ++ l') = slice_last n (l ++ l').
Proof.
  destruct (Nat.le_gt_cases (List.length l) n) as [H | H].
  - rewrite (slice_last_short n l H); reflexivity.
  - unfold slice_last.
    rewrite !skipn_app, !length_app, !length_skipn, skipn_skipn.
    f_equal; f_equal; lia.
Qed.

End SliceLast.

Section Trend.

Variable toFixed1 : number -> string.

Lemma forEach_get th alerts env data k :
  Sif.get k (fst (Sif.forEach toFixed1 th alerts env data))
  = option_map
      (fun s => fst (Sif.forEach_body toFixed1 th alerts k (env k) s))
      (Sif.get k data).
Proof.
  induction data as [ | [k0 s0] rest IH]; [reflexivity | ].
  cbn [Sif.forEach Sif.get].
  destruct (Sif.forEach_body toFixed1 th alerts k0 (env k0) s0)
    as [s1 q] eqn:E.
  destruct (Sif.forEach toFixed1 th alerts env rest) as [rest' q'].
  cbn [fst Sif.get] in *.
  destruct (String.eqb k0 k) eqn:K; [ | exact IH].
  apply String.eqb_eq in K; subst k0.
  cbn [option_map]; rewrite E; reflexivity.
Qed.

Lemma get_In k data s : Sif.get k data = Some s -> In (k, s) data.
Proof.
  induction data as [ | [k0 s0] rest IH]; simpl; [discriminate | ].
  destruct (String.eqb k0 k) eqn:K; auto.
  apply String.eqb_eq in K; intros E; inversion E; subst; auto.
Qed.

Lemma In_get k data :
  In k (map fst data) -> exists s, Sif.get k data = Some s.
Proof.
  induction data as [ | [k0 s0] rest IH]; simpl; [tauto | ].
  destruct (String.eqb k0 k) eqn:K; [eauto | ].
  intros [E | H]; auto.
  subst k0; rewrite String.eqb_refl in K; discriminate.
Qed.

(** What one tick does to the buffer of a station. *)
Lemma tick_trend env st k s0 :
  Sif.get k (Sif.stationData st) = Some s0 ->
  exists s1,
    Sif.get k (Sif.stationData (Sif.tick toFixed1 env st)) = Some s1
    /\ Station.trend s1
       = slice_last 20
           (Station.trend s0
              ++ [TrendPoint.mk (Station.voltage s1) (Station.current s1)
                    (Sif.trend_clock (env k))]).
Proof.
  intros G; unfold Sif.tick.
  rewrite tick_with_stationData, forEach_get, G; simpl.
  eexists; split; [reflexivity | ].
  destruct (forEach_body_reading toFixed1 default_thresholds
              (Sif.alerts st) k (env k) s0) as [Ev [Ec Et]].
  rewrite Ev, Ec; exact Et.
Qed.

(** The buffer after a run is the last twenty of everything pushed. *)
Lemma run_trend envs : forall st k s0,
  Sif.get k (Sif.stationData st) = Some s0 ->
  exists s,
    Sif.get k (Sif.stationData (Sif.run toFixed1 envs st)) = Some s
    /\ List.length (Sif.pushed toFixed1 k envs st) = List.length envs
    /\ slice_last 20 (Station.trend s)
       = slice_last 20 (Station.trend s0 ++ Sif.pushed toFixed1 k envs st)
    /\ (envs <> [] -> List.length (Station.trend s) <= 20).
Proof.
  induction envs as [ | env later IH]; intros st k s0 G; simpl.
  - exists s0; rewrite app_nil_r; repeat split; auto; congruence.
  - destruct (tick_trend env st k s0 G) as [s1 [G1 T1]].
    destruct (IH _ _ _ G1) as [s [G2 [L2 [T2 B2]]]].
    exists s; rewrite G1; simpl; repeat split; auto.
    + rewrite T2, T1, slice_last_app, <- app_assoc; reflexivity.
    + intros _; destruct later as [ | env' later'].
      * simpl in G2; rewrite G1 in G2; inversion G2; subst s.
        rewrite T1, slice_last_length; lia.
      * apply B2; discriminate.
Qed.

Lemma run_trend_bound envs : forall st,
  (forall k s, In (k, s) (Sif.stationData st) ->
               List.length (Station.trend s) <= 20) ->
  forall k s, In (k, s) (Sif.stationData (Sif.run toFixed1 envs st)) ->
              List.length (Station.trend s) <= 20.
Proof.
  induction envs as [ | env later IH]; intros st Hst; simpl; auto.
  apply IH; intros k s Hin; unfold Sif.tick in Hin.
  rewrite tick_with_stationData in Hin.
  apply forEach_In in Hin; destruct Hin as [s0 [_ ->]].
  destruct (forEach_body_reading toFixed1 default_thresholds
              (Sif.alerts st) k (env k) s0) as [_ [_ Et]].
  rewrite Et, slice_last_length; lia.
Qed.

(** C6. A station's trend buffer never exceeds 20 entries; a tick appends
    the new reading and keeps the last 20, dropping the oldest; after any
    run from the initial state the buffer is the last 20 of the readings
    pushed, in the order they were pushed, and after 25 ticks it is the
    readings of ticks 6 to 25. *)
Theorem trend_buffer_fifo :
  (forall envs k s,
      In (k, s) (Sif.stationData (Sif.run toFixed1 envs Sif.initial_state)) ->
      List.length (Station.trend s) <= 20)
  /\ (forall env st k s0,
        Sif.get k (Sif.stationData st) = Some s0 ->
        exists s1,
          Sif.get k (Sif.stationData (Sif.tick toFixed1 env st)) = Some s1
          /\ Station.trend s1
             = slice_last 20
                 (Station.trend s0
                    ++ [TrendPoint.mk (Station.voltage s1)
                          (Station.current s1) (Sif.trend_clock (env k))]))
  /\ (forall envs k,
        In k (map fst Sif.initial_stationData) ->
        exists s,
          Sif.get k (Sif.stationData (Sif.run toFixed1 envs Sif.initial_state))
          = Some s
          /\ List.length (Sif.pushed toFixed1 k envs Sif.initial_state)
             = List.length envs
          /\ Station.trend s
             = slice_last 20 (Sif.pushed toFixed1 k envs Sif.initial_state))
  /\ (forall envs k,
        In k (map fst Sif.initial_stationData) ->
        List.length envs = 25 ->
        exists s,
          Sif.get k (Sif.stationData (Sif.run toFixed1 envs Sif.initial_state))
          = Some s
          /\ List.length (Station.trend s) = 20
          /\ Station.trend s
             = skipn 5 (Sif.pushed toFixed1 k envs Sif.initial_state)).
Proof.
  assert (P3 : forall envs k,
             In k (map fst Sif.initial_stationData) ->
             exists s,
               Sif.get k (Sif.stationData
                            (Sif.run toFixed1 envs Sif.initial_state)) = Some s
               /\ List.length (Sif.pushed toFixed1 k envs Sif.initial_state)
                  = List.length envs
               /\ Station.trend s
                  = slice_last 20
                      (Sif.pushed toFixed1 k envs Sif.initial_state)
               /\ List.length (Station.trend s) <= 20).
  { intros envs k Hk.
    destruct (In_get k Sif.initial_stationData Hk) as [s0 G0].
    assert (T0 : Station.trend s0 = []).
    { apply get_In in G0; simpl in G0.
      destruct G0 as [E | [E | [E | [E | []]]]]; inversion E; reflexivity. }
    destruct (run_trend envs Sif.initial_state k s0 G0) as [s [G [L [T B]]]].
    exists s; rewrite T0 in T; simpl in T.
    assert (Hlen : List.length (Station.trend s) <= 20).
    { destruct envs as [ | env later]; [ | apply B; discriminate].
      change (Sif.get k Sif.initial_stationData = Some s) in G.
      rewrite G0 in G; inversion G; subst s; rewrite T0; simpl; lia. }
    repeat split; auto.
    rewrite <- T; symmetry; apply slice_last_short; exact Hlen. }
  split; [ | split; [ | split]].
  - intros envs; apply run_trend_bound.
    simpl; intros k s [E | [E | [E | [E | []]]]]; inversion E; simpl; lia.
  - intros env st k s0; apply tick_trend.
  - intros envs k Hk; destruct (P3 envs k Hk) as [s [G [L [T _]]]]; eauto.
  - intros envs k Hk H25; destruct (P3 envs k Hk) as [s [G [L [T B]]]].
    exists s; split; [exact G | ].
    assert (E : Station.trend s
                = skipn 5 (Sif.pushed toFixed1 k envs Sif.initial_state)).
    { rewrite T; unfold slice_last; rewrite L, H25; reflexivity. }
    split; [ | exact E].
    rewrite E, length_skipn, L, H25; reflexivity.
Qed.

End Trend.

(* ------------------------------------------------------------------ *)
(** * Part 7. Detection and the alert log                              *)
(* ------------------------------------------------------------------ *)

Lemma AlertType_eqb_eq a b : AlertType.eqb a b = true <-> a = b.
Proof. destruct a, b; simpl; split; congruence. Qed.

Lemma same_key_iff a k ty :
  String.eqb (Alert.station a) k && AlertType.eqb (Alert.type a) ty = true
  <-> Sif.key a = (k, ty).
Proof.
  unfold Sif.key; rewrite andb_true_iff, String.eqb_eq, AlertType_eqb_eq.
  split; [intros [-> ->]; reflexivity | intros E; inversion E; auto].
Qed.

Lemma alertExists_None alerts k ty :
  Sif.alertExists alerts k ty = None <-> ~ In (k, ty) (map Sif.key alerts).
Proof.
  unfold Sif.alertExists; split.
  - intros H Hin; apply in_map_iff in Hin; destruct Hin as [a [Ka Hin]].
    pose proof (find_none _ _ H a Hin) as F; cbv beta in F.
    apply same_key_iff in Ka; congruence.
  - intros H; destruct (find _ alerts) as [a | ] eqn:F; [ | reflexivity].
    apply find_some in F; destruct F as [Hin Ka]; exfalso; apply H.
    apply same_key_iff in Ka; rewrite <- Ka; apply in_map; exact Hin.
Qed.

Lemma alerts_for_In k ty alerts a :
  In a alerts -> Sif.key a = (k, ty) -> In a (Sif.alerts_for k ty alerts).
Proof.
  intros Hin Ka; apply filter_In; split; [exact Hin | ].
  apply same_key_iff; exact Ka.
Qed.

Lemma alerts_for_at_most_one k ty alerts :
  NoDup (map Sif.key alerts) ->
  List.length (Sif.alerts_for k ty alerts) <= 1.
Proof.
  induction alerts as [ | a rest IH]; simpl; intros N; [lia | ].
  inversion N as [ | ? ? Hnot Hrest]; subst.
  destruct (String.eqb (Alert.station a) k && AlertType.eqb (Alert.type a) ty)
    eqn:Ka; [ | apply IH; exact Hrest].
  apply same_key_iff in Ka.
  assert (E : Sif.alerts_for k ty rest = []).
  { destruct (Sif.alerts_for k ty rest) as [ | b more] eqn:F; [reflexivity | ].
    exfalso; apply Hnot.
    assert (Hb : In b (Sif.alerts_for k ty rest)) by (rewrite F; left; reflexivity).
    apply filter_In in Hb; destruct Hb as [Hb Kb]; apply same_key_iff in Kb.
    rewrite Ka, <- Kb; apply in_map; exact Hb. }
  fold (Sif.alerts_for k ty rest); rewrite E; simpl; lia.
Qed.

Section AlertFacts.

Variable toFixed1 : number -> string.
Variable th : ThresholdConfig.

(** The status written and the alerts queued by the detection, in terms
    of the reading it has just stored. *)
Lemma forEach_body_detection alerts k w s :
  let s' := fst (Sif.forEach_body toFixed1 th alerts k w s) in
  Station.status s'
  = (if Sif.voltage_out th s' then Status.warning
     else if Sif.current_out th s' then Status.warning
     else Status.normal)
  /\ snd (Sif.forEach_body toFixed1 th alerts k w s)
     = (if Sif.voltage_out th s' then
          match Sif.alertExists alerts k AlertType.voltage with
          | Some _ => []
          | None =>
              [Alert.mk (Sif.alert_now w) k AlertType.voltage
                 ("Voltage anomaly detected: "
                    ++ toFixed1 (Station.voltage s') ++ "V")
                 (Sif.alert_clock w)]
          end
        else if Sif.current_out th s' then
          match Sif.alertExists alerts k AlertType.current with
          | Some _ => []
          | None =>
              [Alert.mk (Sif.alert_now w) k AlertType.current
                 ("Current anomaly detected: "
                    ++ toFixed1 (Station.current s') ++ "A")
                 (Sif.alert_clock w)]
          end
        else []).
Proof.
  unfold Sif.forEach_body, Sif.voltage_out, Sif.current_out.
  set (v := Sif.clamp (of_Z 215) (of_Z 225) _).
  set (c := Sif.clamp (of_Z 14) (of_Z 16) _).
  destruct (lt v (voltage_min th) || gt v (voltage_max th)) eqn:V;
    cbn [fst snd Station.voltage Station.current Station.status];
    rewrite ?V; [split; reflexivity | ].
  destruct (lt c (current_min th) || gt c (current_max th)) eqn:C;
    cbn [fst snd Station.voltage Station.current Station.status];
    rewrite ?V, ?C; split; reflexivity.
Qed.

(** An update queues at most one alert; it is for the station processed
    and no alert of its station and type was in the closure. *)
Lemma forEach_body_queue alerts k w s a :
  In a (snd (Sif.forEach_body toFixed1 th alerts k w s)) ->
  snd (Sif.forEach_body toFixed1 th alerts k w s) = [a]
  /\ Alert.station a = k
  /\ Alert.id a = Sif.alert_now w
  /\ Sif.alertExists alerts k (Alert.type a) = None.
Proof.
  destruct (forEach_body_detection alerts k w s) as [_ Q].
  cbv zeta in Q; rewrite Q; clear Q.
  destruct (Sif.voltage_out th _).
  - destruct (Sif.alertExists alerts k AlertType.voltage) eqn:E;
      simpl; [tauto | ].
    intros [<- | []]; simpl; auto.
  - destruct (Sif.current_out th _); simpl; [ | tauto].
    destruct (Sif.alertExists alerts k AlertType.current) eqn:E;
      simpl; [tauto | ].
    intros [<- | []]; simpl; auto.
Qed.

Lemma forEach_queue_In alerts env data a :
  In a (snd (Sif.forEach toFixed1 th alerts env data)) ->
  exists s,
    In (Alert.station a, s) data
    /\ In a (snd (Sif.forEach_body toFixed1 th alerts (Alert.station a)
                    (env (Alert.station a)) s)).
Proof.
  induction data as [ | [k0 s0] rest IH]; simpl; [tauto | ].
  destruct (Sif.forEach_body toFixed1 th alerts k0 (env k0) s0)
    as [s1 q] eqn:E.
  destruct (Sif.forEach toFixed1 th alerts env rest) as [rest' q'].
  simpl in *; intros Hin; apply in_app_or in Hin; destruct Hin as [H | H].
  - assert (Hq : In a (snd (Sif.forEach_body toFixed1 th alerts k0
                              (env k0) s0))) by (rewrite E; exact H).
    destruct (forEach_body_queue _ _ _ _ _ Hq) as [_ [K _]].
    exists s0; rewrite K; auto.
  - destruct (IH H) as [s [Hs Ha]]; exists s; auto.
Qed.

Lemma forEach_queue_incl alerts env data k s :
  In (k, s) data ->
  incl (snd (Sif.forEach_body toFixed1 th alerts k (env k) s))
       (snd (Sif.forEach toFixed1 th alerts env data)).
Proof.
  induction data as [ | [k0 s0] rest IH]; simpl; [tauto | ].
  destruct (Sif.forEach_body toFixed1 th alerts k0 (env k0) s0)
    as [s1 q] eqn:E.
  destruct (Sif.forEach toFixed1 th alerts env rest) as [rest' q'].
  simpl in *; intros [H | H] a Ha; apply in_or_app.
  - inversion H; subst; rewrite E in Ha; left; exact Ha.
  - right; apply (IH H); exact Ha.
Qed.

(** Alerts queued in one tick are for pairwise different stations. *)
Lemma forEach_queue_NoDup alerts env data :
  NoDup (map fst data) ->
  NoDup (map Sif.key (snd (Sif.forEach toFixed1 th alerts env data))).
Proof.
  induction data as [ | [k0 s0] rest IH]; simpl; intros N; [constructor | ].
  inversion N as [ | ? ? Hnot Hrest]; subst.
  pose proof (forEach_body_queue alerts k0 (env k0) s0) as B.
  pose proof (forEach_queue_In alerts env rest) as R.
  destruct (Sif.forEach_body toFixed1 th alerts k0 (env k0) s0) as [s1 q].
  destruct (Sif.forEach toFixed1 th alerts env rest) as [rest' q'].
  simpl in *; specialize (IH Hrest).
  destruct q as [ | a more]; [exact IH | ].
  destruct (B a (or_introl eq_refl)) as [Eq [Ka _]].
  inversion Eq; subst more; simpl; constructor; [ | exact IH].
  intros Hin; apply in_map_iff in Hin; destruct Hin as [b [Kb Hb]].
  destruct (R b Hb) as [s [Hs _]]; apply Hnot.
  assert (Eb : Alert.station b = k0).
  { unfold Sif.key in Kb; inversion Kb; congruence. }
  rewrite <- Eb; apply (in_map fst _ _ Hs).
Qed.

Lemma tick_with_keeps_alert_keys env st :
  NoDup (map fst (Sif.stationData st)) ->
  NoDup (map Sif.key (Sif.alerts st)) ->
  NoDup (map fst (Sif.stationData (Sif.tick_with toFixed1 th env st)))
  /\ NoDup (map Sif.key (Sif.alerts (Sif.tick_with toFixed1 th env st))).
Proof.
  intros Nd Na; rewrite tick_with_stationData, tick_with_alerts.
  rewrite forEach_keys; split; [exact Nd | ].
  rewrite map_app; apply NoDup_app; auto using forEach_queue_NoDup.
  intros x Hx Hq; apply in_map_iff in Hq; destruct Hq as [a [Ka Ha]].
  apply forEach_queue_In in Ha; destruct Ha as [s [_ Ha]].
  apply forEach_body_queue in Ha; destruct Ha as [_ [_ [_ Hn]]].
  apply alertExists_None in Hn; apply Hn.
  change (Alert.station a, Alert.type a) with (Sif.key a).
  rewrite Ka; exact Hx.
Qed.

End AlertFacts.

Section AlertLog.

Variable toFixed1 : number -> string.

Lemma run_app envs1 envs2 st :
  Sif.run toFixed1 (envs1 ++ envs2) st
  = Sif.run toFixed1 envs2 (Sif.run toFixed1 envs1 st).
Proof.
  revert st; induction envs1 as [ | env later IH]; intros st; simpl; auto.
Qed.

Lemma run_keeps_alert_keys envs : forall st,
  NoDup (map fst (Sif.stationData st)) ->
  NoDup (map Sif.key (Sif.alerts st)) ->
  NoDup (map fst (Sif.stationData (Sif.run toFixed1 envs st)))
  /\ NoDup (map Sif.key (Sif.alerts (Sif.run toFixed1 envs st))).
Proof.
  induction envs as [ | env later IH]; intros st Nd Na; simpl; auto.
  destruct (tick_with_keeps_alert_keys toFixed1 default_thresholds env st
              Nd Na) as [Nd' Na'].
  apply IH; assumption.
Qed.

Lemma initial_keys_NoDup :
  NoDup (map fst (Sif.stationData Sif.initial_state))
  /\ NoDup (map Sif.key (Sif.alerts Sif.initial_state)).
Proof.
  split; simpl; [ | constructor].
  repeat constructor; simpl; intuition discriminate.
Qed.

Lemma reachable_alert_keys envs :
  NoDup (map Sif.key (Sif.alerts (Sif.run toFixed1 envs Sif.initial_state))).
Proof.
  destruct initial_keys_NoDup as [Nd Na].
  apply (run_keeps_alert_keys envs Sif.initial_state Nd Na).
Qed.

(** The alerts a tick appends, and why each was appended. *)
Lemma tick_appends env st :
  exists queued,
    Sif.alerts (Sif.tick toFixed1 env st) = (Sif.alerts st ++ queued)%list
    /\ forall a, In a queued ->
                 Sif.alertExists (Sif.alerts st) (Alert.station a)
                   (Alert.type a) = None.
Proof.
  unfold Sif.tick; rewrite tick_with_alerts; eexists; split; [reflexivity | ].
  intros a Ha; apply forEach_queue_In in Ha; destruct Ha as [s [_ Ha]].
  apply forEach_body_queue in Ha; tauto.
Qed.

(** C4. The alert collection of every reachable state holds at most one
    alert per station and type; a tick appends an alert only when no alert
    of that station and type exists; and after a tick that leaves a
    station's voltage out of range there is exactly one voltage alert for
    it, whether the breach is new or continues. *)
Theorem one_alert_per_station_and_type :
  (forall envs k ty,
      List.length
        (Sif.alerts_for k ty
           (Sif.alerts (Sif.run toFixed1 envs Sif.initial_state))) <= 1)
  /\ (forall env st,
        exists queued,
          Sif.alerts (Sif.tick toFixed1 env st)
          = (Sif.alerts st ++ queued)%list
          /\ forall a, In a queued ->
                       Sif.alertExists (Sif.alerts st) (Alert.station a)
                         (Alert.type a) = None)
  /\ (forall envs env k s',
        In (k, s')
           (Sif.stationData
              (Sif.tick toFixed1 env
                 (Sif.run toFixed1 envs Sif.initial_state))) ->
        Sif.voltage_out default_thresholds s' = true ->
        List.length
          (Sif.alerts_for k AlertType.voltage
             (Sif.alerts
                (Sif.tick toFixed1 env
                   (Sif.run toFixed1 envs Sif.initial_state)))) = 1).
Proof.
  split; [ | split].
  - intros envs k ty; apply alerts_for_at_most_one, reachable_alert_keys.
  - exact tick_appends.
  - intros envs env k s' Hin Hout.
    set (st := Sif.run toFixed1 envs Sif.initial_state) in *.
    assert (Hle : List.length
                    (Sif.alerts_for k AlertType.voltage
                       (Sif.alerts (Sif.tick toFixed1 env st))) <= 1).
    { apply alerts_for_at_most_one.
      change (Sif.tick toFixed1 env st)
        with (Sif.run toFixed1 [env] st).
      unfold st; rewrite <- run_app; apply reachable_alert_keys. }
    assert (Hge : exists a,
               In a (Sif.alerts_for k AlertType.voltage
                       (Sif.alerts (Sif.tick toFixed1 env st)))).
    { unfold Sif.tick in *; rewrite tick_with_stationData in Hin.
      rewrite tick_with_alerts.
      apply forEach_In in Hin; destruct Hin as [s0 [Hin Es]].
      pose proof (forEach_queue_incl toFixed1 default_thresholds
                    (Sif.alerts st) env _ k s0 Hin) as Hincl.
      destruct (forEach_body_detection toFixed1 default_thresholds
                  (Sif.alerts st) k (env k) s0) as [_ Q].
      cbv zeta in Q; rewrite <- Es, Hout in Q.
      destruct (Sif.alertExists (Sif.alerts st) k AlertType.voltage)
        as [a | ] eqn:E.
      - exists a; unfold Sif.alertExists in E; apply find_some in E.
        destruct E as [Ha Ka]; apply same_key_iff in Ka.
        apply alerts_for_In; [apply in_or_app; left; exact Ha | exact Ka].
      - eexists; apply alerts_for_In;
          [apply in_or_app; right; apply Hincl; rewrite Q; left; reflexivity
          | reflexivity]. }
    destruct Hge as [a Ha].
    destruct (Sif.alerts_for k AlertType.voltage _) as [ | b more];
      simpl in *; [contradiction | lia].
Qed.

(** C9. A tick sets every station's status from the reading it has just
    stored and the fixed bounds alone, so a reading back in range is
    ['normal'] at once; the alerts of a state are kept, in order, at the
    head of the alerts of every later state; and there is a reachable
    state in which a station is ['normal'] while an alert for it is
    listed. *)
Theorem status_resets_alerts_stay :
  (forall env st,
      Forall (fun entry : string * Station.t =>
                Station.status (snd entry)
                = if Sif.voltage_out default_thresholds (snd entry)
                     || Sif.current_out default_thresholds (snd entry)
                  then Status.warning else Status.normal)
             (Sif.stationData (Sif.tick toFixed1 env st)))
  /\ (forall envs st,
        exists later,
          Sif.alerts (Sif.run toFixed1 envs st)
          = (Sif.alerts st ++ later)%list)
  /\ (exists envs k s a,
        Sif.get k (Sif.stationData (Sif.run toFixed1 envs Sif.initial_state))
        = Some s
        /\ Station.status s = Status.normal
        /\ In a (Sif.alerts (Sif.run toFixed1 envs Sif.initial_state))
        /\ Alert.station a = k).
Proof.
  split; [ | split].
  - intros env st; apply Forall_forall; intros [k s'] Hin.
    unfold Sif.tick in Hin; rewrite tick_with_stationData in Hin.
    apply forEach_In in Hin; destruct Hin as [s0 [_ ->]].
    destruct (forEach_body_detection toFixed1 default_thresholds
                (Sif.alerts st) k (env k) s0) as [S _].
    cbv zeta in S; cbn [snd]; rewrite S.
    destruct (Sif.voltage_out _ _), (Sif.current_out _ _); reflexivity.
  - induction envs as [ | env later IH]; intros st; simpl.
    + exists []; rewrite app_nil_r; reflexivity.
    + destruct (IH (Sif.tick toFixed1 env st)) as [l2 E2].
      destruct (tick_appends env st) as [l1 [E1 _]].
      exists (l1 ++ l2)%list; rewrite E2, E1, app_assoc; reflexivity.
  - set (envs := [Sif.current_up; Sif.current_up; Sif.current_down]).
    set (st := Sif.run toFixed1 envs Sif.initial_state).
    assert (A : existsb (fun a => String.eqb (Alert.station a) "SIF-405")
                  (Sif.alerts st) = true) by (vm_compute; reflexivity).
    apply existsb_exists in A; destruct A as [a [Ha Ka]].
    apply String.eqb_eq in Ka.
    destruct (Sif.get "SIF-405" (Sif.stationData st)) as [s | ] eqn:G;
      [ | vm_compute in G; discriminate G].
    exists envs, "SIF-405"%string, s, a.
    split; [exact G | ].
    split; [vm_compute in G; inversion G; reflexivity | ].
    split; [exact Ha | exact Ka].
Qed.

(** Identifiers across ticks: when the clock readings of a tick are
    all beyond the identifiers issued so far, every alert the tick appends
    has a larger identifier than every earlier alert. *)
Lemma later_tick_ids_are_larger env st bound :
  (forall a, In a (Sif.alerts st) -> (Alert.id a < bound)%Z) ->
  (forall k, (bound <= Sif.alert_now (env k))%Z) ->
  exists queued,
    Sif.alerts (Sif.tick toFixed1 env st) = (Sif.alerts st ++ queued)%list
    /\ forall a b, In a (Sif.alerts st) -> In b queued ->
                   (Alert.id a < Alert.id b)%Z.
Proof.
  intros Hold Hnow; unfold Sif.tick; rewrite tick_with_alerts.
  eexists; split; [reflexivity | ].
  intros a b Ha Hb; apply forEach_queue_In in Hb; destruct Hb as [s [_ Hb]].
  apply forEach_body_queue in Hb; destruct Hb as [_ [_ [Eid _]]].
  specialize (Hold a Ha); specialize (Hnow (Alert.station b)); lia.
Qed.

(** C7, the code where it departs from it. Two stations leave the normal
    range in the same tick and [Date.now()] answers the same millisecond
    for both alert objects: the two alerts, appended one after the other,
    carry the same identifier, and the alert list is rendered with a
    repeated key. *)
Theorem same_tick_alerts_share_id :
  map (fun a => (Alert.station a, Alert.id a))
      (Sif.alerts
         (Sif.run toFixed1 [Sif.diverging; Sif.diverging] Sif.initial_state))
  = [("SIF-402"%string, 1700000000000%Z); ("SIF-405"%string, 1700000000000%Z)]
  /\ ~ NoDup
        (Sif.rendered_alert_keys
           (Sif.alerts
              (Sif.run toFixed1 [Sif.diverging; Sif.diverging]
                 Sif.initial_state))).
Proof.
  split; [vm_compute; reflexivity | ].
  intros N; vm_compute in N.
  inversion N as [ | x l Hnot _]; apply Hnot; left; reflexivity.
Qed.

End AlertLog.

(* ------------------------------------------------------------------ *)
(** * Part 8. The initial state and the fields of a reading            *)
(* ------------------------------------------------------------------ *)

(** C10. Before the first tick the fleet is SIF-401, SIF-402, SIF-405 and
    SIF-407, with voltages 220, 218, 221, 219 and currents 15.2, 14.8,
    15.5, 15.1; every station is ['normal'], inside both the detection
    bounds and the envelope, with an empty trend, and there is no alert. *)
Theorem initial_fleet :
  map fst (Sif.stationData Sif.initial_state)
  = ["SIF-401"; "SIF-402"; "SIF-405"; "SIF-407"]%string
  /\ map (fun entry => Station.voltage (snd entry))
         (Sif.stationData Sif.initial_state)
     = [of_Z 220; of_Z 218; of_Z 221; of_Z 219]
  /\ map (fun entry => Station.current (snd entry))
         (Sif.stationData Sif.initial_state)
     = [decimal 152 1; decimal 148 1; decimal 155 1; decimal 151 1]
  /\ Forall (fun entry : string * Station.t =>
               Station.status (snd entry) = Status.normal
               /\ Station.trend (snd entry) = []
               /\ Sif.voltage_out default_thresholds (snd entry) = false
               /\ Sif.current_out default_thresholds (snd entry) = false
               /\ Sif.in_envelope (snd entry) = true)
            (Sif.stationData Sif.initial_state)
  /\ Sif.alerts Sif.initial_state = []
  /\ (forall toFixed1, Sif.run toFixed1 [] Sif.initial_state = Sif.initial_state).
Proof.
  repeat split; repeat constructor.
Qed.

Section Objects.

Variable toFixed1 : number -> string.

(** On the object of a record the callback over objects does what the
    callback over records does. *)
Lemma forEach_body_object_of alerts k w s :
  Sif.forEach_body_object toFixed1 alerts k w (Sif.object_of s)
  = Some (Sif.object_of
            (fst (Sif.forEach_body toFixed1 default_thresholds alerts k w s)),
          snd (Sif.forEach_body toFixed1 default_thresholds alerts k w s)).
Proof.
  destruct s as [v c st t].
  unfold Sif.forEach_body_object, Sif.forEach_body, Sif.object_of,
    Sif.object_literal, Sif.clamp.
  cbn [Station.voltage Station.current Station.status Station.trend
       voltage_min voltage_max current_min current_max default_thresholds].
  change (Sif.read _ "voltage") with (Sif.num v) at 1.
  cbn [Sif.as_number Sif.bind].
  set (v' := Math_max (of_Z 215) _).
  change (Sif.assign "voltage" (Sif.num v') _)
    with [("voltage"%string, Sif.num v'); ("current"%string, Sif.num c);
          ("status"%string, Sif.str (Status.to_string st));
          ("trend"%string, Sif.points t)].
  change (Sif.read _ "current") with (Sif.num c) at 1.
  cbn [Sif.as_number Sif.bind].
  set (c' := Math_max (of_Z 14) _).
  change (Sif.assign "current" (Sif.num c') _)
    with [("voltage"%string, Sif.num v'); ("current"%string, Sif.num c');
          ("status"%string, Sif.str (Status.to_string st));
          ("trend"%string, Sif.points t)].
  change (Sif.read _ "trend") with (Sif.points t).
  change (Sif.read _ "voltage") with (Sif.num v').
  change (Sif.read _ "current") with (Sif.num c').
  cbn [Sif.as_number Sif.as_points Sif.bind].
  destruct (lt v' (of_Z 216) || gt v' (of_Z 224));
    [reflexivity | ].
  destruct (lt c' (decimal 145 1) || gt c' (decimal 158 1)); reflexivity.
Qed.

(** C3, in the form that holds. The detection has no threshold
    configuration: it compares the reading just stored against the fixed
    bounds 216, 224, 14.5 and 15.8.  The callback over objects, which
    carries those bounds as the literals of the source, leaves the object
    of the record and queues the alerts described here.  The reading
    stored is the clamped perturbation of the previous one; the status
    written is ['warning']
    when its voltage is below 216 or above 224, otherwise ['warning'] when
    its current is below 14.5 or above 15.8, otherwise ['normal']; the
    alert queued is the voltage alert in the first case and the current
    alert in the second, unless one of that station and type exists, and
    none in the third; so with both measurements out of range only a
    voltage alert can be queued, and one is if none exists yet. *)
Theorem detection_order alerts k w s :
  let s' := fst (Sif.forEach_body toFixed1 default_thresholds alerts k w s) in
  let queued :=
    snd (Sif.forEach_body toFixed1 default_thresholds alerts k w s) in
  let v := Sif.clamp (of_Z 215) (of_Z 225)
             (add (Station.voltage s)
                (mul (sub (Sif.random_voltage w) (decimal 5 1)) (of_Z 2))) in
  let c := Sif.clamp (of_Z 14) (of_Z 16)
             (add (Station.current s)
                (mul (sub (Sif.random_current w) (decimal 5 1))
                   (decimal 5 1))) in
  Sif.forEach_body_object toFixed1 alerts k w (Sif.object_of s)
  = Some (Sif.object_of s', queued)
  /\ (Station.voltage s' = v /\ Station.current s' = c)
  /\ Station.status s'
     = (if lt v (of_Z 216) || gt v (of_Z 224) then Status.warning
        else if lt c (decimal 145 1) || gt c (decimal 158 1)
             then Status.warning
             else Status.normal)
  /\ queued
     = (if lt v (of_Z 216) || gt v (of_Z 224)
        then match Sif.alertExists alerts k AlertType.voltage with
             | Some _ => []
             | None =>
                 [Alert.mk (Sif.alert_now w) k AlertType.voltage
                    ("Voltage anomaly detected: " ++ toFixed1 v ++ "V")
                    (Sif.alert_clock w)]
             end
        else if lt c (decimal 145 1) || gt c (decimal 158 1)
             then match Sif.alertExists alerts k AlertType.current with
                  | Some _ => []
                  | None =>
                      [Alert.mk (Sif.alert_now w) k AlertType.current
                         ("Current anomaly detected: " ++ toFixed1 c ++ "A")
                         (Sif.alert_clock w)]
                  end
             else [])
  /\ (lt v (of_Z 216) || gt v (of_Z 224) = true ->
      lt c (decimal 145 1) || gt c (decimal 158 1) = true ->
      Station.status s' = Status.warning
      /\ match Sif.alertExists alerts k AlertType.voltage with
         | Some _ => queued = []
         | None => map Alert.type queued = [AlertType.voltage]
         end).
Proof.
  destruct (forEach_body_reading toFixed1 default_thresholds alerts k w s)
    as [Ev [Ec _]].
  destruct (forEach_body_detection toFixed1 default_thresholds alerts k w s)
    as [S Q].
  cbv zeta in *; unfold Sif.voltage_out, Sif.current_out in S, Q.
  rewrite Ev, Ec in S, Q.
  unfold Sif.next_voltage, Sif.next_current in *.
  split; [apply forEach_body_object_of | ].
  split; [split; assumption | ].
  split; [exact S | ].
  split; [exact Q | ].
  intros V _; rewrite S, Q; clear S Q.
  change (voltage_min default_thresholds) with (of_Z 216).
  change (voltage_max default_thresholds) with (of_Z 224).
  rewrite V; split; [reflexivity | ].
  destruct (Sif.alertExists alerts k AlertType.voltage); reflexivity.
Qed.

Lemma forEach_object_of alerts env data :
  Sif.forEach_object toFixed1 alerts env
    (map (fun entry : string * Station.t =>
            (fst entry, Sif.object_of (snd entry))) data)
  = Some (map (fun entry : string * Station.t =>
                 (fst entry, Sif.object_of (snd entry)))
            (fst (Sif.forEach toFixed1 default_thresholds alerts env data)),
          snd (Sif.forEach toFixed1 default_thresholds alerts env data)).
Proof.
  induction data as [ | [k s] rest IH]; [reflexivity | ].
  cbn [map Sif.forEach_object Sif.forEach fst snd].
  rewrite forEach_body_object_of, IH; cbn [Sif.bind fst snd].
  destruct (Sif.forEach_body toFixed1 default_thresholds alerts k (env k) s)
    as [s' q].
  destruct (Sif.forEach toFixed1 default_thresholds alerts env rest)
    as [rest' q'].
  reflexivity.
Qed.

Lemma tick_object_of env st :
  Sif.tick_object toFixed1 env (Sif.objects_of st)
  = Some (Sif.objects_of (Sif.tick toFixed1 env st)).
Proof.
  unfold Sif.tick_object, Sif.objects_of, Sif.tick, Sif.tick_with.
  cbn [fst snd]; rewrite forEach_object_of; cbn [Sif.bind fst snd].
  destruct (Sif.forEach toFixed1 default_thresholds (Sif.alerts st) env
              (Sif.stationData st)) as [updated queued].
  reflexivity.
Qed.

Lemma run_object_of envs : forall st,
  Sif.run_object toFixed1 envs (Sif.objects_of st)
  = Some (Sif.objects_of (Sif.run toFixed1 envs st)).
Proof.
  induction envs as [ | env later IH]; intros st; [reflexivity | ].
  cbn [Sif.run_object Sif.run]; rewrite tick_object_of; cbn [Sif.bind].
  apply IH.
Qed.

(** C1, in the form that holds. No reading of the simulator has a power
    field.  Run over station objects, with every assignment of the tick
    creating or overwriting the property it names, any number of ticks
    from the initial objects succeeds and leaves station objects whose own
    properties are exactly voltage, current, status and trend, in that
    order; reading [power] from such an object yields [undefined]; and the
    objects are those of the records the simulation over records
    reaches. *)
Theorem readings_have_no_power envs :
  exists data alerts,
    Sif.run_object toFixed1 envs Sif.initial_objects = Some (data, alerts)
    /\ (data, alerts)
       = Sif.objects_of (Sif.run toFixed1 envs Sif.initial_state)
    /\ Forall (fun entry : string * Sif.Object =>
                 Sif.keys (snd entry)
                 = ["voltage"; "current"; "status"; "trend"]%string
                 /\ Sif.own "power" (snd entry) = None
                 /\ Sif.read (snd entry) "power" = Sif.undefined)
              data.
Proof.
  exists (fst (Sif.objects_of (Sif.run toFixed1 envs Sif.initial_state))),
         (snd (Sif.objects_of (Sif.run toFixed1 envs Sif.initial_state))).
  split; [ | split].
  - change Sif.initial_objects with (Sif.objects_of Sif.initial_state).
    rewrite run_object_of; reflexivity.
  - reflexivity.
  - unfold Sif.objects_of; cbn [fst].
    apply Forall_forall; intros [k obj] Hin.
    apply in_map_iff in Hin; destruct Hin as [[k0 s] [E _]].
    inversion E; subst; cbn [snd]; repeat split.
Qed.

End Objects.

(** C1, refuted as stated. After one tick the power read from the object
    of SIF-401 is not the product of its voltage and current: it is
    [undefined]. *)
Lemma power_is_not_the_product :
  ~ (forall envs data alerts k obj v c,
        Sif.run_object toFixed1_plain envs Sif.initial_objects
        = Some (data, alerts) ->
        In (k, obj) data ->
        Sif.read obj "voltage" = Sif.num v ->
        Sif.read obj "current" = Sif.num c ->
        Sif.read obj "power" = Sif.num (mul v c)).
Proof.
  intros H.
  destruct (Sif.run_object toFixed1_plain [Sif.steady] Sif.initial_objects)
    as [[data alerts] | ] eqn:R; [ | vm_compute in R; discriminate R].
  destruct data as [ | [k obj] rest]; [vm_compute in R; discriminate R | ].
  assert (P : Sif.read obj "power" = Sif.undefined
              /\ Sif.read obj "voltage" = Sif.num (of_Z 220)
              /\ Sif.read obj "current" = Sif.num (decimal 152 1)).
  { vm_compute in R; inversion R; subst; vm_compute; repeat split. }
  destruct P as [Pp [Pv Pc]].
  specialize (H [Sif.steady] _ _ k obj _ _ R (or_introl eq_refl) Pv Pc).
  rewrite Pp in H; discriminate H.
Qed.

(* ------------------------------------------------------------------ *)
(** * Part 9. The chat panel                                           *)
(* ------------------------------------------------------------------ *)

Section ChatFacts.

Variable toFixed1 : number -> string.

Lemma stationContext_shown st :
  Sif.stationContext toFixed1 (Sif.stationData st)
  = join newline (map Sif.render (fst (Sif.shown toFixed1 st))).
Proof.
  unfold Sif.stationContext, Sif.shown; cbn [fst]; rewrite map_map.
  f_equal; apply map_ext; intros [k s]; reflexivity.
Qed.

Lemma activeAlerts_shown st :
  Sif.activeAlerts (Sif.alerts st)
  = match snd (Sif.shown toFixed1 st) with
    | [] => "None"%string
    | messages => join ", " messages
    end.
Proof.
  unfold Sif.activeAlerts, Sif.shown; cbn [snd].
  destruct (Sif.alerts st); reflexivity.
Qed.

Lemma prompt_shown st1 st2 question :
  Sif.shown toFixed1 st1 = Sif.shown toFixed1 st2 ->
  Sif.prompt toFixed1 st1 question = Sif.prompt toFixed1 st2 question.
Proof.
  intros E; unfold Sif.prompt.
  rewrite !stationContext_shown, !activeAlerts_shown, E; reflexivity.
Qed.

Variable Service : Type.
Variable complete : Service -> string -> option string * Service.

(** C2, in the form that holds. The reply is the answer of the completion service
    to a prompt built from the query, the stations as displayed and the
    alert messages, or the apology when the call fails; the service is
    left in the state that call put it in; and two snapshots that display
    alike are answered alike by the same service. *)
Theorem chat_reply_is_the_service_answer :
  (forall st svc ui,
      blank (Sif.inputMessage ui) || Sif.isLoading ui = false ->
      Sif.handleChatSubmit toFixed1 complete st svc ui
      = ({| Sif.chatMessages :=
              Sif.chatMessages ui
                ++ [Sif.mkMessage Sif.Role.user (Sif.inputMessage ui);
                    Sif.mkMessage Sif.Role.assistant
                      match fst (complete svc
                                   (Sif.prompt toFixed1 st
                                      (Sif.inputMessage ui))) with
                      | Some response => response
                      | None => Sif.apology
                      end];
            Sif.inputMessage := EmptyString;
            Sif.isLoading := false |},
         snd (complete svc (Sif.prompt toFixed1 st (Sif.inputMessage ui)))))
  /\ (forall st1 st2 svc ui,
        Sif.shown toFixed1 st1 = Sif.shown toFixed1 st2 ->
        Sif.handleChatSubmit toFixed1 complete st1 svc ui
        = Sif.handleChatSubmit toFixed1 complete st2 svc ui).
Proof.
  split.
  - intros st svc ui G; unfold Sif.handleChatSubmit; rewrite G.
    destruct (complete svc _) as [answer svc']; reflexivity.
  - intros st1 st2 svc ui E; unfold Sif.handleChatSubmit.
    rewrite (prompt_shown st1 st2 _ E); reflexivity.
Qed.

End ChatFacts.

(** C2, refuted as stated. The same question against the same snapshot gets
    two different replies from a service that remembers being asked. *)
Lemma chat_reply_is_not_a_function_of_the_snapshot :
  ~ (forall (Service : Type)
            (complete : Service -> string -> option string * Service)
            st svc svc' ui,
        fst (Sif.handleChatSubmit toFixed1_plain complete st svc ui)
        = fst (Sif.handleChatSubmit toFixed1_plain complete st svc' ui)).
Proof.
  intros H.
  specialize (H bool Sif.moody Sif.initial_state false true
                (Sif.asking "Any alerts?")).
  vm_compute in H; discriminate H.
Qed.

(* ------------------------------------------------------------------ *)
(** * Part 10. The threshold panel                                     *)
(* ------------------------------------------------------------------ *)

Section ThresholdFacts.

Variable toString : number -> string.
Variable describe : ThresholdConfig -> string.

(** C8. A request with [voltage_min >= voltage_max] or
    [current_min >= current_max] is answered with an error and leaves the
    server's configuration as it was; the panel that sent it keeps its
    [thresholds] and shows the error in the chat. *)
Theorem invalid_thresholds_rejected config p :
  ge (voltage_min (Native.tempThresholds p))
     (voltage_max (Native.tempThresholds p)) = true
  \/ ge (current_min (Native.tempThresholds p))
        (current_max (Native.tempThresholds p)) = true ->
  Native.put_thresholds describe (Native.tempThresholds p) config
  = (Native.rejected (describe (Native.tempThresholds p)), config)
  /\ fst (Native.apply_thresholds toString describe config p) = config
  /\ Native.thresholds
       (snd (Native.apply_thresholds toString describe config p))
     = Native.thresholds p
  /\ Native.chatMessages
       (snd (Native.apply_thresholds toString describe config p))
     = (Native.chatMessages p
          ++ [Sif.mkMessage Sif.Role.assistant
                ("❌ Error updating thresholds: "
                   ++ describe (Native.tempThresholds p))])%list.
Proof.
  intros H.
  assert (B : ge (voltage_min (Native.tempThresholds p))
                 (voltage_max (Native.tempThresholds p))
              || ge (current_min (Native.tempThresholds p))
                    (current_max (Native.tempThresholds p)) = true).
  { apply orb_true_iff; exact H. }
  unfold Native.apply_thresholds, Native.put_thresholds; rewrite B.
  repeat split.
Qed.

End ThresholdFacts.

(* ------------------------------------------------------------------ *)
(** * Part 11. The theorems at concrete inputs                         *)
(* ------------------------------------------------------------------ *)


(** After 25 steady ticks the buffer of SIF-402 is what ticks 6 to 25
    pushed. *)
Lemma trend_buffer_fifo_witness :
  option_map Station.trend
    (Sif.get "SIF-402"
       (Sif.stationData
          (Sif.run toFixed1_plain (repeat Sif.steady 25) Sif.initial_state)))
  = Some (skipn 5
            (Sif.pushed toFixed1_plain "SIF-402" (repeat Sif.steady 25)
               Sif.initial_state)).
Proof.
  destruct (proj2 (proj2 (proj2 (trend_buffer_fifo toFixed1_plain)))
              (repeat Sif.steady 25) "SIF-402"%string)
    as [s [G [_ E]]].
  - simpl; right; left; reflexivity.
  - reflexivity.
  - rewrite G; cbn [option_map]; f_equal; exact E.
Defined.

(** SIF-405 starts at 221 V; four rising ticks take it above 224 V and a
    fifth keeps it there: one voltage alert, not two. *)
Lemma one_alert_per_station_and_type_witness :
  List.length
    (Sif.alerts_for "SIF-405" AlertType.voltage
       (Sif.alerts
          (Sif.tick toFixed1_plain Sif.voltage_up
             (Sif.run toFixed1_plain (repeat Sif.voltage_up 4)
                Sif.initial_state)))) = 1.
Proof.
  destruct (Sif.get "SIF-405"
              (Sif.stationData
                 (Sif.tick toFixed1_plain Sif.voltage_up
                    (Sif.run toFixed1_plain (repeat Sif.voltage_up 4)
                       Sif.initial_state)))) as [s | ] eqn:G;
    [ | vm_compute in G; discriminate G].
  assert (V : Sif.voltage_out default_thresholds s = true).
  { vm_compute in G; injection G as <-; vm_compute; reflexivity. }
  apply get_In in G.
  exact (proj2 (proj2 (one_alert_per_station_and_type toFixed1_plain))
           (repeat Sif.voltage_up 4) Sif.voltage_up "SIF-405"%string s G V).
Defined.

(** A reading pushed above both upper bounds raises one alert, a voltage
    alert. *)
Lemma detection_order_witness :
  map Alert.type
    (snd (Sif.forEach_body toFixed1_plain default_thresholds []
            "SIF-405" (Sif.effects (decimal 99 2) (decimal 99 2))
            Sif.hot_station))
  = [AlertType.voltage].
Proof.
  apply (proj2 (proj2 (proj2 (proj2
           (detection_order toFixed1_plain [] "SIF-405"
              (Sif.effects (decimal 99 2) (decimal 99 2))
              Sif.hot_station)))));
    vm_compute; reflexivity.
Defined.

(** C3, refuted as stated. Against bounds of 200 to 230 V and 10 to 20 A
    the hot station, stored at 225 V and 16 A, would be normal; the
    detection makes it a warning, whatever configuration one has in
    mind. *)
Lemma detection_ignores_configuration :
  ~ (forall th alerts k w s,
        Station.status
          (fst (Sif.forEach_body toFixed1_plain default_thresholds alerts k
                  w s))
        = if Sif.voltage_out th
               (fst (Sif.forEach_body toFixed1_plain default_thresholds
                       alerts k w s))
          then Status.warning
          else if Sif.current_out th
                    (fst (Sif.forEach_body toFixed1_plain default_thresholds
                            alerts k w s))
               then Status.warning
               else Status.normal).
Proof.
  intros H.
  specialize (H Sif.wide_thresholds [] "SIF-405"%string
                (Sif.effects (decimal 99 2) (decimal 99 2)) Sif.hot_station).
  vm_compute in H; discriminate H.
Qed.

(** A first question to the moody service, and the same reply for a
    snapshot that displays like the initial one. *)
Lemma chat_reply_is_the_service_answer_witness :
  Sif.handleChatSubmit toFixed1_plain Sif.moody Sif.initial_state false
    (Sif.asking "Any alerts?")
  = ({| Sif.chatMessages :=
          [Sif.mkMessage Sif.Role.user "Any alerts?";
           Sif.mkMessage Sif.Role.assistant "All stations are normal."];
        Sif.inputMessage := EmptyString;
        Sif.isLoading := false |}, true)
  /\ Sif.handleChatSubmit toFixed1_plain Sif.moody Sif.initial_state false
       (Sif.asking "Any alerts?")
     = Sif.handleChatSubmit toFixed1_plain Sif.moody Sif.nudged_state false
         (Sif.asking "Any alerts?").
Proof.
  split.
  - apply (proj1 (chat_reply_is_the_service_answer toFixed1_plain bool
                    Sif.moody) Sif.initial_state false
                 (Sif.asking "Any alerts?")).
    reflexivity.
  - apply (proj2 (chat_reply_is_the_service_answer toFixed1_plain bool
                    Sif.moody)).
    vm_compute; reflexivity.
Defined.

(** The request [{voltage_min: 230, voltage_max: 220}] against the default
    configuration. *)
Lemma invalid_thresholds_rejected_witness :
  fst (Native.apply_thresholds toFixed1_plain
         (fun _ => "voltage_min must be less than voltage_max"%string)
         default_thresholds (Native.editing Native.inverted_voltage))
  = default_thresholds
  /\ Native.thresholds
       (snd (Native.apply_thresholds toFixed1_plain
               (fun _ => "voltage_min must be less than voltage_max"%string)
               default_thresholds (Native.editing Native.inverted_voltage)))
     = default_thresholds.
Proof.
  destruct (invalid_thresholds_rejected toFixed1_plain
              (fun _ => "voltage_min must be less than voltage_max"%string)
              default_thresholds (Native.editing Native.inverted_voltage))
    as [_ [A [B _]]].
  - left; vm_compute; reflexivity.
  - split; [exact A | exact B].
Defined.

(* ------------------------------------------------------------------ *)
(** * Part 12. More about the order on numbers                         *)
(* ------------------------------------------------------------------ *)

(** Swapping the operands of a comparison swaps its outcome. *)
Lemma SFcompare_swap a b :
  SFcompare b a = option_map CompOpp (SFcompare a b).
Proof.
  destruct a as [sa | sa | | sa ma ea], b as [sb | sb | | sb mb eb];
    simpl; try reflexivity;
    try (destruct sa; reflexivity); try (destruct sb; reflexivity);
    try (destruct sa, sb; reflexivity).
  rewrite (Z.compare_antisym ea eb).
  change (Pos.compare_cont Eq mb ma) with (Pos.compare mb ma).
  change (Pos.compare_cont Eq ma mb) with (Pos.compare ma mb).
  rewrite (Pos.compare_antisym ma mb).
  destruct sa, sb; simpl; try reflexivity;
    destruct (Z.compare ea eb); simpl; try reflexivity;
    destruct (Pos.compare ma mb); reflexivity.
Qed.

Lemma lt_asym a b : lt a b = true -> lt b a = false.
Proof.
  unfold lt, SFltb; rewrite (SFcompare_swap a b).
  destruct (SFcompare a b) as [[ | | ] | ]; simpl; congruence.
Qed.

(** Two numbers are always comparable: what is not below is at least. *)
Lemma not_lt_ge a b :
  isNaN a = false -> isNaN b = false -> lt a b = false -> le b a = true.
Proof.
  unfold lt, le, SFltb, SFleb; rewrite (SFcompare_swap a b); intros Ha Hb.
  destruct (SFcompare a b) as [[ | | ] | ] eqn:E; simpl; try congruence.
  destruct a, b; simpl in *; discriminate.
Qed.

Lemma lt_not_nan a b : lt a b = true -> isNaN a = false /\ isNaN b = false.
Proof. intros H; apply le_not_nan, lt_le, H. Qed.

(** The order is transitive. *)
Lemma lt_trans a b c : lt a b = true -> lt b c = true -> lt a c = true.
Proof.
  unfold lt, SFltb.
  destruct a as [sa | sa | | sa ma ea], b as [sb | sb | | sb mb eb],
           c as [sc | sc | | sc mc ec];
    simpl; try discriminate; try reflexivity;
    try (destruct sa; simpl; try discriminate; try reflexivity);
    try (destruct sb; simpl; try discriminate; try reflexivity);
    try (destruct sc; simpl; try discriminate; try reflexivity);
    change (Pos.compare_cont Eq ma mb) with (Pos.compare ma mb);
    change (Pos.compare_cont Eq mb mc) with (Pos.compare mb mc);
    change (Pos.compare_cont Eq ma mc) with (Pos.compare ma mc);
    destruct (Z.compare_spec ea eb), (Z.compare_spec eb ec),
             (Z.compare_spec ea ec);
    simpl; try discriminate; try reflexivity; try lia;
    destruct (Pos.compare_spec ma mb), (Pos.compare_spec mb mc),
             (Pos.compare_spec ma mc);
    simpl; try discriminate; try reflexivity; lia.
Qed.

Lemma min_scan_start hi :
  isNaN hi = false -> min_scan pos_infinity hi = hi.
Proof.
  unfold min_scan, pos_infinity, lt, SFltb.
  destruct hi as [[ | ] | [ | ] | | [ | ] ? ?]; simpl; try reflexivity;
    discriminate.
Qed.

Lemma max_scan_start lo :
  isNaN lo = false -> max_scan neg_infinity lo = lo.
Proof.
  unfold max_scan, neg_infinity, gt, SFltb.
  destruct lo as [[ | ] | [ | ] | | [ | ] ? ?]; simpl; try reflexivity;
    discriminate.
Qed.

Lemma Math_min_numbers a b :
  isNaN a = false -> isNaN b = false -> Math_min a b = min_scan a b.
Proof.
  intros Ha Hb; unfold Math_min; rewrite Ha, Hb, (min_scan_start a Ha).
  reflexivity.
Qed.

Lemma Math_max_numbers a b :
  isNaN a = false -> isNaN b = false -> Math_max a b = max_scan a b.
Proof.
  intros Ha Hb; unfold Math_max; rewrite Ha, Hb, (max_scan_start a Ha).
  reflexivity.
Qed.

Lemma zeros_not_lt a b :
  (is_pos_zero a && is_neg_zero b = true
   \/ is_neg_zero a && is_pos_zero b = true) ->
  lt a b = false /\ lt b a = false.
Proof.
  destruct a as [[ | ] | | | ], b as [[ | ] | | | ]; simpl;
    intros [H | H]; try discriminate H; split; reflexivity.
Qed.

(** [Math.max(lo, Math.min(hi, x))] for [lo < hi]: a value below [lo]
    becomes [lo], a value above [hi] becomes [hi], and a value strictly
    between the two is returned as it is. *)
Lemma clamp_cases lo hi x :
  lt lo hi = true ->
  (lt x lo = true -> Sif.clamp lo hi x = lo)
  /\ (lt hi x = true -> Sif.clamp lo hi x = hi)
  /\ (lt lo x = true -> lt x hi = true -> Sif.clamp lo hi x = x).
Proof.
  intros Hb; destruct (lt_not_nan _ _ Hb) as [Nlo Nhi].
  unfold Sif.clamp; repeat split.
  - intros Hx; destruct (lt_not_nan _ _ Hx) as [Nx _].
    pose proof (lt_trans _ _ _ Hx Hb) as Hxhi.
    rewrite (Math_min_numbers hi x Nhi Nx); unfold min_scan; rewrite Hxhi.
    replace (if is_neg_zero x && is_pos_zero hi then x else x) with x
      by (destruct (is_neg_zero x && is_pos_zero hi); reflexivity).
    rewrite (Math_max_numbers lo x Nlo Nx); unfold max_scan.
    change (gt x lo) with (lt lo x).
    rewrite (lt_asym _ _ Hx).
    destruct (is_pos_zero x && is_neg_zero lo) eqn:Z; [ | reflexivity].
    destruct (zeros_not_lt x lo (or_introl Z)); congruence.
  - intros Hx; destruct (lt_not_nan _ _ Hx) as [_ Nx].
    rewrite (Math_min_numbers hi x Nhi Nx); unfold min_scan.
    rewrite (lt_asym _ _ Hx).
    destruct (is_neg_zero x && is_pos_zero hi) eqn:Z.
    { destruct (zeros_not_lt x hi (or_intror Z)); congruence. }
    rewrite (Math_max_numbers lo hi Nlo Nhi); unfold max_scan.
    change (gt hi lo) with (lt lo hi).
    rewrite Hb; destruct (is_pos_zero hi && is_neg_zero lo); reflexivity.
  - intros Hlo Hhi; destruct (lt_not_nan _ _ Hhi) as [Nx _].
    rewrite (Math_min_numbers hi x Nhi Nx); unfold min_scan; rewrite Hhi.
    replace (if is_neg_zero x && is_pos_zero hi then x else x) with x
      by (destruct (is_neg_zero x && is_pos_zero hi); reflexivity).
    rewrite (Math_max_numbers lo x Nlo Nx); unfold max_scan.
    change (gt x lo) with (lt lo x).
    rewrite Hlo; destruct (is_pos_zero x && is_neg_zero lo); reflexivity.
Qed.

(** Subtracting a finite number and dividing or multiplying by a finite
    number other than zero keep a number a number. *)
Lemma sub_finite_not_nan a b :
  isNaN a = false -> finite b = true -> isNaN (sub a b) = false.
Proof.
  unfold sub; destruct a, b; simpl; try discriminate; intros _ _;
    try reflexivity.
  - destruct s, s0; reflexivity.
  - apply binary_normalize_not_nan.
Qed.

Lemma div_not_nan a b :
  isNaN a = false -> nonzero_finite b = true -> isNaN (div a b) = false.
Proof.
  unfold div; destruct a as [sa | sa | | sa ma ea], b as [ | | | sb mb eb];
    simpl; try discriminate; intros _ _; try reflexivity.
  unfold SFdiv_core_binary.
  set (m' := match _ with Zpos _ => _ | Z0 => _ | Zneg _ => _ end).
  assert (Hm : (0 <= m')%Z).
  { unfold m'; destruct (_ - _ - _)%Z; try lia.
    apply Z.shiftl_nonneg; lia. }
  pose proof (Z.div_pos m' (Zpos mb) Hm (eq_refl : (0 < Zpos mb)%Z)) as Hq.
  unfold Z.div in Hq.
  destruct (Z.div_eucl m' (Zpos mb)) as [q r]; simpl in Hq.
  apply binary_round_aux_not_nan; exact Hq.
Qed.

(* ------------------------------------------------------------------ *)
(** * Part 13. More about the simulation and its alert log             *)
(* ------------------------------------------------------------------ *)

Lemma find_app_some (A : Type) (f : A -> bool) l q a :
  find f l = Some a -> find f (l ++ q) = Some a.
Proof.
  induction l as [ | x l IH]; simpl; [discriminate | ].
  destruct (f x); auto.
Qed.

Lemma filter_none (A : Type) (f : A -> bool) l :
  (forall x, In x l -> f x = false) -> filter f l = [].
Proof.
  induction l as [ | x l IH]; simpl; intros H; [reflexivity | ].
  rewrite (H x (or_introl eq_refl)); apply IH; auto.
Qed.

Section Fleet.

Variable toFixed1 : number -> string.

Lemma forEach_In_fwd th alerts env data k s :
  In (k, s) data ->
  In (k, fst (Sif.forEach_body toFixed1 th alerts k (env k) s))
     (fst (Sif.forEach toFixed1 th alerts env data)).
Proof.
  induction data as [ | [k0 s0] rest IH]; simpl; [tauto | ].
  destruct (Sif.forEach_body toFixed1 th alerts k0 (env k0) s0)
    as [s1 q] eqn:E.
  destruct (Sif.forEach toFixed1 th alerts env rest) as [rest' q'].
  simpl in *; intros [H | H]; [left | right; exact (IH H)].
  inversion H; subst; rewrite E; reflexivity.
Qed.

Lemma run_codes envs : forall st,
  map fst (Sif.stationData (Sif.run toFixed1 envs st))
  = map fst (Sif.stationData st).
Proof.
  induction envs as [ | env later IH]; intros st; simpl; [reflexivity | ].
  rewrite IH; unfold Sif.tick; rewrite tick_with_stationData.
  apply forEach_keys.
Qed.

Lemma run_alert_stations envs : forall st,
  (forall a, In a (Sif.alerts st) ->
             In (Alert.station a) (map fst (Sif.stationData st))) ->
  forall a, In a (Sif.alerts (Sif.run toFixed1 envs st)) ->
            In (Alert.station a) (map fst (Sif.stationData st)).
Proof.
  induction envs as [ | env later IH]; intros st Hst a; simpl; auto.
  intros Ha; apply IH in Ha.
  - unfold Sif.tick in Ha; rewrite tick_with_stationData, forEach_keys in Ha.
    exact Ha.
  - clear a Ha; intros a Ha; unfold Sif.tick in *.
    rewrite tick_with_stationData, forEach_keys.
    rewrite tick_with_alerts in Ha; apply in_app_or in Ha.
    destruct Ha as [Ha | Ha]; [auto | ].
    apply forEach_queue_In in Ha; destruct Ha as [s [Hs _]].
    apply (in_map fst _ _ Hs).
Qed.

(** X1. The fleet never changes: after any number of ticks the station
    codes are the four initial ones, in the same order, and every alert in
    the log names one of them. *)
Theorem fleet_is_fixed envs :
  map fst (Sif.stationData (Sif.run toFixed1 envs Sif.initial_state))
  = ["SIF-401"; "SIF-402"; "SIF-405"; "SIF-407"]%string
  /\ Forall (fun a => In (Alert.station a)
                        ["SIF-401"; "SIF-402"; "SIF-405"; "SIF-407"]%string)
            (Sif.alerts (Sif.run toFixed1 envs Sif.initial_state)).
Proof.
  split; [apply (run_codes envs Sif.initial_state) | ].
  apply Forall_forall; intros a Ha.
  apply (run_alert_stations envs Sif.initial_state); [ | exact Ha].
  simpl; tauto.
Qed.

(** X2. The alert log never holds more than eight alerts: one per station
    and type is the most it can ever contain. *)
Theorem alert_log_is_bounded envs :
  List.length (Sif.alerts (Sif.run toFixed1 envs Sif.initial_state)) <= 8.
Proof.
  rewrite <- (length_map Sif.key).
  change 8 with
    (List.length
       (list_prod ["SIF-401"; "SIF-402"; "SIF-405"; "SIF-407"]%string
          [AlertType.voltage; AlertType.current])).
  apply NoDup_incl_length; [apply reachable_alert_keys | ].
  intros x Hx; apply in_map_iff in Hx; destruct Hx as [a [<- Ha]].
  apply in_prod.
  - apply (run_alert_stations envs Sif.initial_state); [ | exact Ha].
    simpl; tauto.
  - destruct (Alert.type a); simpl; auto.
Qed.

(** After a tick, whatever the state before it, a station in warning has
    an alert in the log. *)
Lemma tick_warning_has_alert env st k s' :
  In (k, s') (Sif.stationData (Sif.tick toFixed1 env st)) ->
  Station.status s' = Status.warning ->
  exists a, In a (Sif.alerts (Sif.tick toFixed1 env st))
            /\ Alert.station a = k.
Proof.
  unfold Sif.tick; rewrite tick_with_stationData, tick_with_alerts.
  intros Hin Hw; apply forEach_In in Hin; destruct Hin as [s [Hin Es]].
  pose proof (forEach_queue_incl toFixed1 default_thresholds (Sif.alerts st)
                env _ k s Hin) as Hincl.
  destruct (forEach_body_detection toFixed1 default_thresholds
              (Sif.alerts st) k (env k) s) as [S Q].
  cbv zeta in S, Q; rewrite <- Es in S, Q; rewrite Hw in S.
  assert (Found : forall ty b,
             Sif.alertExists (Sif.alerts st) k ty = Some b ->
             exists a, In a (Sif.alerts st ++ snd (Sif.forEach toFixed1
                              default_thresholds (Sif.alerts st) env
                              (Sif.stationData st)))
                       /\ Alert.station a = k).
  { intros ty b E; unfold Sif.alertExists in E; apply find_some in E.
    destruct E as [Hb Kb]; apply same_key_iff in Kb; inversion Kb.
    exists b; split; [apply in_or_app; left; exact Hb | reflexivity]. }
  destruct (Sif.voltage_out default_thresholds s').
  - destruct (Sif.alertExists (Sif.alerts st) k AlertType.voltage)
      as [b | ] eqn:E; [exact (Found _ _ E) | ].
    eexists; split;
      [apply in_or_app; right; apply Hincl; rewrite Q; left; reflexivity
      | reflexivity].
  - destruct (Sif.current_out default_thresholds s'); [ | discriminate S].
    destruct (Sif.alertExists (Sif.alerts st) k AlertType.current)
      as [b | ] eqn:E; [exact (Found _ _ E) | ].
    eexists; split;
      [apply in_or_app; right; apply Hincl; rewrite Q; left; reflexivity
      | reflexivity].
Qed.

(** X3. A warning is never shown without an alert: in every state reached
    from the initial one, a station whose status is ['warning'] has at
    least one alert in the log. *)
Theorem warning_has_alert envs k s :
  In (k, s) (Sif.stationData (Sif.run toFixed1 envs Sif.initial_state)) ->
  Station.status s = Status.warning ->
  exists a,
    In a (Sif.alerts (Sif.run toFixed1 envs Sif.initial_state))
    /\ Alert.station a = k.
Proof.
  destruct envs as [ | env0 rest].
  - simpl; intros [H | [H | [H | [H | []]]]]; inversion H; discriminate.
  - destruct (exists_last (l := env0 :: rest)) as [earlier [env E]];
      [discriminate | ].
    rewrite E, run_app; apply tick_warning_has_alert.
Qed.

(** X4. Every alert a tick appends reports the reading its station holds
    after that tick: the station is in warning, the alert is a voltage
    alert with the new voltage in its text when the voltage is out of
    range and a current alert with the new current otherwise, and its
    identifier and time are the clock readings taken for that station. *)
Theorem appended_alert_reports_reading env st :
  exists queued,
    Sif.alerts (Sif.tick toFixed1 env st) = (Sif.alerts st ++ queued)%list
    /\ Forall
         (fun b =>
            exists s',
              In (Alert.station b, s')
                 (Sif.stationData (Sif.tick toFixed1 env st))
              /\ Station.status s' = Status.warning
              /\ Alert.id b = Sif.alert_now (env (Alert.station b))
              /\ Alert.timestamp b = Sif.alert_clock (env (Alert.station b))
              /\ ((Alert.type b = AlertType.voltage
                   /\ Sif.voltage_out default_thresholds s' = true
                   /\ Alert.message b = Sif.voltage_text toFixed1 s')
                  \/ (Alert.type b = AlertType.current
                      /\ Sif.voltage_out default_thresholds s' = false
                      /\ Sif.current_out default_thresholds s' = true
                      /\ Alert.message b = Sif.current_text toFixed1 s')))
         queued.
Proof.
  unfold Sif.tick; rewrite tick_with_alerts, tick_with_stationData.
  eexists; split; [reflexivity | ].
  apply Forall_forall; intros b Hb.
  apply forEach_queue_In in Hb; destruct Hb as [s [Hs Hb]].
  exists (fst (Sif.forEach_body toFixed1 default_thresholds (Sif.alerts st)
                 (Alert.station b) (env (Alert.station b)) s)).
  split; [apply forEach_In_fwd; exact Hs | ].
  destruct (forEach_body_detection toFixed1 default_thresholds
              (Sif.alerts st) (Alert.station b) (env (Alert.station b)) s)
    as [S Q].
  cbv zeta in S, Q; rewrite Q in Hb; rewrite S; clear S Q.
  destruct (Sif.voltage_out default_thresholds _) eqn:V.
  - destruct (Sif.alertExists _ _ AlertType.voltage); [destruct Hb | ].
    destruct Hb as [Eb | []].
    pose proof (f_equal Alert.id Eb) as Hid.
    pose proof (f_equal Alert.type Eb) as Hty.
    pose proof (f_equal Alert.message Eb) as Hmsg.
    pose proof (f_equal Alert.timestamp Eb) as Hts.
    cbn [Alert.id Alert.type Alert.message Alert.timestamp] in Hid, Hty, Hmsg, Hts.
    repeat split; auto; left; repeat split; auto.
  - destruct (Sif.current_out default_thresholds _) eqn:C; [ | destruct Hb].
    destruct (Sif.alertExists _ _ AlertType.current); [destruct Hb | ].
    destruct Hb as [Eb | []].
    pose proof (f_equal Alert.id Eb) as Hid.
    pose proof (f_equal Alert.type Eb) as Hty.
    pose proof (f_equal Alert.message Eb) as Hmsg.
    pose proof (f_equal Alert.timestamp Eb) as Hts.
    cbn [Alert.id Alert.type Alert.message Alert.timestamp] in Hid, Hty, Hmsg, Hts.
    repeat split; auto; right; repeat split; auto.
Qed.

(** X5. The first alert of a station and type is permanent: once the log
    holds one, every later state holds that same alert and no other of its
    station and type, however the readings move afterwards. *)
Theorem first_alert_is_permanent envs : forall st k ty a,
  Sif.alertExists (Sif.alerts st) k ty = Some a ->
  Sif.alertExists (Sif.alerts (Sif.run toFixed1 envs st)) k ty = Some a
  /\ Sif.alerts_for k ty (Sif.alerts (Sif.run toFixed1 envs st))
     = Sif.alerts_for k ty (Sif.alerts st).
Proof.
  induction envs as [ | env later IH]; intros st k ty a E; simpl; auto.
  destruct (tick_appends toFixed1 env st) as [queued [Eq Hq]].
  assert (E' : Sif.alertExists (Sif.alerts (Sif.tick toFixed1 env st)) k ty
               = Some a).
  { rewrite Eq; apply find_app_some; exact E. }
  destruct (IH _ _ _ _ E') as [F G]; split; [exact F | ].
  rewrite G, Eq; unfold Sif.alerts_for; rewrite filter_app.
  rewrite (filter_none _ _ queued); [apply app_nil_r | ].
  intros b Hb; specialize (Hq b Hb).
  destruct (String.eqb (Alert.station b) k
            && AlertType.eqb (Alert.type b) ty) eqn:K; [ | reflexivity].
  apply same_key_iff in K; inversion K; subst; congruence.
Qed.

Lemma tick_queue_ids env st :
  exists queued,
    Sif.alerts (Sif.tick toFixed1 env st) = (Sif.alerts st ++ queued)%list
    /\ forall b, In b queued ->
                 Alert.id b = Sif.alert_now (env (Alert.station b)).
Proof.
  unfold Sif.tick; rewrite tick_with_alerts.
  eexists; split; [reflexivity | ].
  intros b Hb; apply forEach_queue_In in Hb; destruct Hb as [s [_ Hb]].
  apply forEach_body_queue in Hb; destruct Hb as [_ [_ [Eid _]]]; exact Eid.
Qed.

Lemma run_queue_ids later : forall st mid,
  Sif.clock_advances mid later ->
  exists queued,
    Sif.alerts (Sif.run toFixed1 later st) = (Sif.alerts st ++ queued)%list
    /\ forall b, In b queued -> (mid <= Alert.id b)%Z.
Proof.
  induction later as [ | env rest IH]; intros st mid Hc;
    cbn [Sif.run Sif.clock_advances] in *.
  - exists []; rewrite app_nil_r; split; [reflexivity | intros b []].
  - destruct Hc as [next [Hnow Hrest]].
    destruct (tick_queue_ids env st) as [q1 [E1 H1]].
    destruct (IH (Sif.tick toFixed1 env st) next Hrest) as [q2 [E2 H2]].
    exists (q1 ++ q2)%list; split.
    + rewrite E2, E1, app_assoc; reflexivity.
    + intros b Hb; apply in_app_or in Hb; destruct Hb as [Hb | Hb].
      * rewrite (H1 b Hb); apply Hnow.
      * specialize (H2 b Hb); specialize (Hnow EmptyString); lia.
Qed.

Lemma run_ids_below before : forall later st bound,
  (forall a, In a (Sif.alerts st) -> (Alert.id a < bound)%Z) ->
  Sif.clock_advances bound (before ++ later) ->
  exists mid,
    Sif.clock_advances mid later
    /\ forall a, In a (Sif.alerts (Sif.run toFixed1 before st)) ->
                 (Alert.id a < mid)%Z.
Proof.
  induction before as [ | env rest IH]; intros later st bound Hst Hc.
  - exists bound; split; [exact Hc | exact Hst].
  - cbn [app Sif.clock_advances Sif.run] in *.
    destruct Hc as [next [Hnow Hrest]].
    apply (IH later (Sif.tick toFixed1 env st) next); [ | exact Hrest].
    destruct (tick_queue_ids env st) as [q [E H]]; rewrite E.
    intros a Ha; apply in_app_or in Ha; destruct Ha as [Ha | Ha].
    + specialize (Hst a Ha); specialize (Hnow EmptyString); lia.
    + rewrite (H a Ha); apply Hnow.
Qed.

(** X14. Identifiers grow from tick to tick.  Take a run whose clock
    moves on between ticks, started from a log whose identifiers are all
    before the first reading, and cut it anywhere: the log at the end is
    the log at the cut followed by the alerts appended after it, and each
    of those has a strictly larger identifier than every alert that was
    in the log at the cut.  Two alerts can therefore share an identifier
    only when the same tick appended them. *)
Theorem ids_increase_across_ticks before later st bound :
  (forall a, In a (Sif.alerts st) -> (Alert.id a < bound)%Z) ->
  Sif.clock_advances bound (before ++ later) ->
  exists queued,
    Sif.alerts (Sif.run toFixed1 (before ++ later) st)
    = (Sif.alerts (Sif.run toFixed1 before st) ++ queued)%list
    /\ forall a b,
         In a (Sif.alerts (Sif.run toFixed1 before st)) ->
         In b queued ->
         (Alert.id a < Alert.id b)%Z.
Proof.
  intros Hst Hc.
  destruct (run_ids_below before later st bound Hst Hc) as [mid [Hm Hb]].
  destruct (run_queue_ids later (Sif.run toFixed1 before st) mid Hm)
    as [queued [E Hq]].
  exists queued; split; [rewrite run_app; exact E | ].
  intros a b Ha Hin; specialize (Hb a Ha); specialize (Hq b Hin); lia.
Qed.

End Fleet.

(* ------------------------------------------------------------------ *)
(** * Part 14. Readings at the limits, the trend and the station card  *)
(* ------------------------------------------------------------------ *)

Lemma slice_last_suffix (A : Type) n (l : list A) :
  exists dropped, l = (dropped ++ slice_last n l)%list.
Proof.
  exists (firstn (List.length l - n) l); unfold slice_last.
  symmetry; apply firstn_skipn.
Qed.

Lemma In_slice_last (A : Type) n (l : list A) x :
  In x (slice_last n l) -> In x l.
Proof.
  destruct (slice_last_suffix A n l) as [dropped E]; intros H.
  rewrite E; apply in_or_app; right; exact H.
Qed.

Lemma slice_last_slice_last (A : Type) m n (l : list A) :
  m <= n -> slice_last m (slice_last n l) = slice_last m l.
Proof.
  intros H; unfold slice_last.
  rewrite skipn_skipn, length_skipn; f_equal; lia.
Qed.

Lemma slice_last_snoc (A : Type) n (l : list A) x :
  slice_last (S n) (l ++ [x]) = (slice_last n l ++ [x])%list.
Proof.
  unfold slice_last; rewrite skipn_app, length_app; simpl.
  replace (List.length l + 1 - S n) with (List.length l - n) by lia.
  replace (List.length l - n - List.length l) with 0 by lia.
  reflexivity.
Qed.

Section Readings.

Variable toFixed1 : number -> string.

(** X6. The stored measurements saturate at the limits of the envelope:
    when the perturbed voltage falls below 215 the station stores exactly
    215, when it exceeds 225 exactly 225, and strictly in between the
    perturbed value itself; likewise for the current between 14 and 16. *)
Theorem update_saturates th alerts k w s :
  let s' := fst (Sif.forEach_body toFixed1 th alerts k w s) in
  let v := add (Station.voltage s)
             (mul (sub (Sif.random_voltage w) (decimal 5 1)) (of_Z 2)) in
  let c := add (Station.current s)
             (mul (sub (Sif.random_current w) (decimal 5 1)) (decimal 5 1)) in
  ((lt v (of_Z 215) = true -> Station.voltage s' = of_Z 215)
   /\ (gt v (of_Z 225) = true -> Station.voltage s' = of_Z 225)
   /\ (gt v (of_Z 215) = true -> lt v (of_Z 225) = true ->
       Station.voltage s' = v))
  /\ ((lt c (of_Z 14) = true -> Station.current s' = of_Z 14)
      /\ (gt c (of_Z 16) = true -> Station.current s' = of_Z 16)
      /\ (gt c (of_Z 14) = true -> lt c (of_Z 16) = true ->
          Station.current s' = c)).
Proof.
  destruct (forEach_body_reading toFixed1 th alerts k w s) as [Ev [Ec _]].
  cbv zeta in *; rewrite Ev, Ec; unfold Sif.next_voltage, Sif.next_current.
  split; apply clamp_cases; reflexivity.
Qed.

(** X7. After every tick the newest point of a station's trend is the
    reading the station holds: the last bar of the card and the numbers
    above it never disagree. *)
Theorem trend_ends_with_reading envs env st :
  Forall (fun entry : string * Station.t =>
            exists older,
              Station.trend (snd entry)
              = (older
                   ++ [TrendPoint.mk (Station.voltage (snd entry))
                         (Station.current (snd entry))
                         (Sif.trend_clock (env (fst entry)))])%list)
         (Sif.stationData (Sif.run toFixed1 (envs ++ [env]) st)).
Proof.
  rewrite run_app; simpl; apply Forall_forall; intros [k s'] Hin.
  unfold Sif.tick in Hin; rewrite tick_with_stationData in Hin.
  apply forEach_In in Hin; destruct Hin as [s [_ ->]].
  destruct (forEach_body_reading toFixed1 default_thresholds
              (Sif.alerts (Sif.run toFixed1 envs st)) k (env k) s)
    as [Ev [Ec Et]].
  cbn [fst snd]; rewrite Et, Ev, Ec.
  change 20 with (S 19); rewrite slice_last_snoc; eexists; reflexivity.
Qed.

Lemma initial_run_trend envs k :
  In k (map fst Sif.initial_stationData) ->
  exists s,
    Sif.get k (Sif.stationData (Sif.run toFixed1 envs Sif.initial_state))
    = Some s
    /\ List.length (Sif.pushed toFixed1 k envs Sif.initial_state)
       = List.length envs
    /\ Station.trend s
       = slice_last 20 (Sif.pushed toFixed1 k envs Sif.initial_state).
Proof.
  intros Hk; destruct (In_get k Sif.initial_stationData Hk) as [s0 G0].
  assert (T0 : Station.trend s0 = []).
  { apply get_In in G0; simpl in G0.
    destruct G0 as [E | [E | [E | [E | []]]]]; inversion E; reflexivity. }
  destruct (run_trend toFixed1 envs Sif.initial_state k s0 G0)
    as [s [G [L [T B]]]].
  exists s; rewrite T0 in T; simpl in T; repeat split; auto.
  rewrite <- T; symmetry; apply slice_last_short.
  destruct envs as [ | env later]; [ | apply B; discriminate].
  change (Sif.get k Sif.initial_stationData = Some s) in G.
  rewrite G0 in G; inversion G; subst s; rewrite T0; simpl; lia.
Qed.

(** X8. A station card draws the last ten readings pushed for its
    station, oldest first, one bar each: as many bars as ticks so far, up
    to ten, although the buffer behind it keeps twenty. *)
Theorem card_shows_last_ten envs k :
  In k (map fst Sif.initial_stationData) ->
  exists s,
    Sif.get k (Sif.stationData (Sif.run toFixed1 envs Sif.initial_state))
    = Some s
    /\ Sif.trend_bars s
       = map Sif.bar_height
           (slice_last 10 (Sif.pushed toFixed1 k envs Sif.initial_state))
    /\ List.length (Sif.trend_bars s) = Nat.min (List.length envs) 10.
Proof.
  intros Hk; destruct (initial_run_trend envs k Hk) as [s [G [L T]]].
  exists s; split; [exact G | ].
  assert (E : Sif.trend_bars s
              = map Sif.bar_height
                  (slice_last 10
                     (Sif.pushed toFixed1 k envs Sif.initial_state))).
  { unfold Sif.trend_bars; rewrite T, slice_last_slice_last by lia.
    reflexivity. }
  split; [exact E | ].
  rewrite E, length_map, slice_last_length, L; reflexivity.
Qed.

Lemma tick_trend_points env st :
  Sif.unit_draws env ->
  (forall k s, In (k, s) (Sif.stationData st) ->
               Sif.in_envelope s = true
               /\ forallb Sif.point_in_envelope (Station.trend s) = true) ->
  forall k s, In (k, s) (Sif.stationData (Sif.tick toFixed1 env st)) ->
              Sif.in_envelope s = true
              /\ forallb Sif.point_in_envelope (Station.trend s) = true.
Proof.
  intros Henv Hst k s' Hin.
  assert (He : Sif.in_envelope s' = true).
  { apply (tick_with_envelope toFixed1 default_thresholds env st Henv)
      with (k := k); [ | exact Hin].
    intros k0 s0 H0; apply (Hst k0 s0 H0). }
  split; [exact He | ].
  unfold Sif.tick in Hin; rewrite tick_with_stationData in Hin.
  apply forEach_In in Hin; destruct Hin as [s [Hin Es]].
  destruct (forEach_body_reading toFixed1 default_thresholds
              (Sif.alerts st) k (env k) s) as [Ev [Ec Et]].
  cbv zeta in Ev, Ec, Et; rewrite <- Es in Ev, Ec, Et.
  apply forallb_forall; intros p Hp; rewrite Et in Hp.
  apply In_slice_last, in_app_or in Hp; destruct Hp as [Hp | [<- | []]].
  - destruct (Hst k s Hin) as [_ Hold].
    apply (proj1 (forallb_forall _ _) Hold p Hp).
  - rewrite <- Ev, <- Ec; exact He.
Qed.

(** X9. With the random draws in [[0, 1)], every point kept in a trend
    buffer lies in the envelope, [215 <= voltage <= 225] and
    [14 <= current <= 16], in every state reached from the initial one. *)
Theorem trend_points_in_envelope envs :
  Forall Sif.unit_draws envs ->
  Forall (fun entry : string * Station.t =>
            forallb Sif.point_in_envelope (Station.trend (snd entry)) = true)
         (Sif.stationData (Sif.run toFixed1 envs Sif.initial_state)).
Proof.
  intros Hd; apply Forall_forall; intros [k s] Hin; cbn [snd].
  assert (G : forall envs st,
             Forall Sif.unit_draws envs ->
             (forall k s, In (k, s) (Sif.stationData st) ->
                          Sif.in_envelope s = true
                          /\ forallb Sif.point_in_envelope (Station.trend s)
                             = true) ->
             forall k s,
               In (k, s) (Sif.stationData (Sif.run toFixed1 envs st)) ->
               Sif.in_envelope s = true
               /\ forallb Sif.point_in_envelope (Station.trend s) = true).
  { clear; induction envs as [ | env later IH]; intros st Hd Hst; simpl; auto.
    inversion Hd; subst; apply IH; auto.
    apply tick_trend_points; auto. }
  apply (G envs Sif.initial_state Hd) with (k := k); [ | exact Hin].
  clear; simpl; intros k s [E | [E | [E | [E | []]]]]; inversion E;
    split; reflexivity.
Qed.

End Readings.

(* ------------------------------------------------------------------ *)
(** * Part 15. The alerts section and the conversation                 *)
(* ------------------------------------------------------------------ *)

Section Page.

Variable toFixed1 : number -> string.

Lemma run_appends envs : forall st,
  exists later,
    Sif.alerts (Sif.run toFixed1 envs st) = (Sif.alerts st ++ later)%list.
Proof.
  induction envs as [ | env rest IH]; intros st; simpl.
  - exists []; rewrite app_nil_r; reflexivity.
  - destruct (IH (Sif.tick toFixed1 env st)) as [l2 E2].
    destruct (tick_appends toFixed1 env st) as [l1 [E1 _]].
    exists (l1 ++ l2)%list; rewrite E2, E1, app_assoc; reflexivity.
Qed.

(** X10. The alerts section shows at most three alerts, the ones appended
    last, and hides the rest of the log; once it is on the page it stays
    there; and a station can be in warning while none of the alerts shown
    is about it. *)
Theorem alerts_section_shows_newest :
  (forall alerts shown,
      Sif.alerts_section alerts = Some shown ->
      List.length shown = Nat.min (List.length alerts) 3
      /\ exists hidden, alerts = (hidden ++ shown)%list)
  /\ (forall envs st,
        Sif.alerts_section (Sif.alerts st) <> None ->
        Sif.alerts_section (Sif.alerts (Sif.run toFixed1 envs st)) <> None)
  /\ (exists envs k s shown,
        Sif.get k (Sif.stationData (Sif.run toFixed1 envs Sif.initial_state))
        = Some s
        /\ Station.status s = Status.warning
        /\ Sif.alerts_section
             (Sif.alerts (Sif.run toFixed1 envs Sif.initial_state))
           = Some shown
        /\ Forall (fun a => Alert.station a <> k) shown).
Proof.
  split; [ | split].
  - intros alerts shown E.
    assert (Es : shown = slice_last 3 alerts).
    { destruct alerts; simpl in E; inversion E; reflexivity. }
    subst shown; split; [apply slice_last_length | ].
    apply slice_last_suffix.
  - intros envs st H; destruct (run_appends envs st) as [later E].
    rewrite E; destruct (Sif.alerts st); [contradiction H; reflexivity | ].
    simpl; discriminate.
  - set (envs := repeat Sif.voltage_up 7).
    set (st := Sif.run toFixed1 envs Sif.initial_state).
    destruct (Sif.get "SIF-405" (Sif.stationData st)) as [s | ] eqn:G;
      [ | vm_compute in G; discriminate G].
    destruct (Sif.alerts_section (Sif.alerts st)) as [shown | ] eqn:A;
      [ | vm_compute in A; discriminate A].
    exists envs, "SIF-405"%string, s, shown.
    split; [exact G | ].
    split; [vm_compute in G; inversion G; reflexivity | ].
    split; [exact A | ].
    assert (B : forallb (fun a => negb (String.eqb (Alert.station a)
                                          "SIF-405")) shown = true).
    { vm_compute in A; inversion A; vm_compute; reflexivity. }
    apply Forall_forall; intros a Ha Ea.
    apply (proj1 (forallb_forall _ _) B) in Ha.
    rewrite Ea, String.eqb_refl in Ha; discriminate Ha.
Qed.

Variable Service : Type.
Variable complete : Service -> string -> option string * Service.

(** One turn of a conversation that is not waiting for an answer. *)
Lemma chat_turn st svc ui text :
  Sif.isLoading ui = false ->
  exists reply,
    Sif.isLoading
      (fst (Sif.handleChatSubmit toFixed1 complete st svc
              (Sif.type_message text ui))) = false
    /\ Sif.chatMessages
         (fst (Sif.handleChatSubmit toFixed1 complete st svc
                 (Sif.type_message text ui)))
       = (Sif.chatMessages ui
            ++ if blank text then []
               else [Sif.mkMessage Sif.Role.user text;
                     Sif.mkMessage Sif.Role.assistant reply])%list.
Proof.
  intros L; unfold Sif.handleChatSubmit, Sif.type_message.
  cbn [Sif.inputMessage Sif.isLoading Sif.chatMessages]; rewrite L.
  destruct (blank text); cbn [orb fst Sif.isLoading Sif.chatMessages].
  - exists EmptyString; rewrite app_nil_r; auto.
  - destruct (complete svc _) as [answer svc']; cbn [fst].
    eexists; split; reflexivity.
Qed.

Lemma said_by_app r l1 l2 :
  Sif.said_by r (l1 ++ l2) = (Sif.said_by r l1 ++ Sif.said_by r l2)%list.
Proof. unfold Sif.said_by; rewrite filter_app, map_app; reflexivity. Qed.

Lemma said_by_exchange questions : forall replies,
  List.length replies = List.length questions ->
  Sif.said_by Sif.Role.user (Sif.exchange questions replies) = questions
  /\ Sif.said_by Sif.Role.assistant (Sif.exchange questions replies)
     = replies.
Proof.
  induction questions as [ | q qs IH]; intros [ | r rs] L;
    try discriminate L; [split; reflexivity | ].
  injection L as L; destruct (IH rs L) as [U A].
  unfold Sif.said_by in *; cbn; rewrite U, A; split; reflexivity.
Qed.


End Page.

(* ------------------------------------------------------------------ *)
(** * Part 16. The server-backed variant: bars and threshold panel     *)
(* ------------------------------------------------------------------ *)

Lemma native_bar_height_at_least_five point :
  isNaN (TrendPoint.voltage point) = false ->
  le (of_Z 5) (Native.bar_height point) = true.
Proof.
  intros Hv; unfold Native.bar_height.
  set (h := mul _ (of_Z 100)).
  assert (Hh : isNaN h = false).
  { unfold h; apply mul_not_nan; [ | reflexivity].
    apply div_not_nan; [ | reflexivity].
    apply sub_finite_not_nan; [exact Hv | reflexivity]. }
  rewrite (Math_max_numbers h (of_Z 5) Hh eq_refl); unfold max_scan.
  change (is_pos_zero (of_Z 5)) with false; cbn [andb].
  change (gt (of_Z 5) h) with (lt h (of_Z 5)).
  destruct (lt h (of_Z 5)) eqn:L; [reflexivity | ].
  apply not_lt_ge; [exact Hh | reflexivity | exact L].
Qed.

(** X12. In the server-backed station card no bar is lower than five
    percent: whatever voltages the server reports, as long as they are
    numbers, each of the at most ten bars drawn has a height of at least
    5; without a trend nothing is drawn. *)
Theorem native_bars_stay_visible :
  (forall points,
      Forall (fun p => isNaN (TrendPoint.voltage p) = false) points ->
      Forall (fun height => le (of_Z 5) height = true)
             (Native.trend_bars (Some points))
      /\ List.length (Native.trend_bars (Some points))
         = Nat.min (List.length points) 10)
  /\ Native.trend_bars None = [].
Proof.
  split; [ | reflexivity].
  intros points H; unfold Native.trend_bars; split.
  - apply Forall_forall; intros height Hh.
    apply in_map_iff in Hh; destruct Hh as [p [<- Hp]].
    apply native_bar_height_at_least_five.
    apply In_slice_last in Hp.
    apply (proj1 (Forall_forall _ _) H p Hp).
  - rewrite length_map; apply slice_last_length.
Qed.

Section PanelFacts.

Variable toString : number -> string.
Variable parseFloat : string -> number.

Lemma handle_all_app events1 events2 p :
  Native.handle_all toString parseFloat (events1 ++ events2) p
  = Native.handle_all toString parseFloat events2
      (Native.handle_all toString parseFloat events1 p).
Proof.
  revert p; induction events1 as [ | e later IH]; intros p; simpl; auto.
Qed.

Lemma handle_all_crashed events : forall p,
  Native.crashed p = true ->
  Native.handle_all toString parseFloat events p = p.
Proof.
  induction events as [ | e later IH]; intros p C; [reflexivity | ].
  cbn [Native.handle_all]; unfold Native.handle at 1; rewrite C.
  apply IH; exact C.
Qed.

Lemma handle_crashes e p :
  Native.crashed p = false ->
  Native.crashed (Native.handle toString parseFloat e p) = Native.fatal e.
Proof.
  intros C; unfold Native.handle; rewrite C.
  destruct e as [field value | | | [data | | error | | ] | [data | ]];
    cbn; rewrite ?C; reflexivity.
Qed.

Lemma handle_all_crashes events : forall p,
  Native.crashed p = false ->
  Native.crashed (Native.handle_all toString parseFloat events p)
  = existsb Native.fatal events.
Proof.
  induction events as [ | e later IH]; intros p C;
    cbn [Native.handle_all existsb]; [exact C | ].
  rewrite <- (handle_crashes e p C).
  destruct (Native.crashed (Native.handle toString parseFloat e p)) eqn:C1.
  - rewrite handle_all_crashed by exact C1; exact C1.
  - apply IH; exact C1.
Qed.

Lemma handle_all_thresholds events : forall p,
  Native.crashed p = false ->
  Native.crashed (Native.handle_all toString parseFloat events p) = false ->
  Native.thresholds (Native.handle_all toString parseFloat events p)
  = Native.last_confirmed events (Native.thresholds p)
  /\ List.length
       (Native.chatMessages (Native.handle_all toString parseFloat events p))
     = List.length (Native.chatMessages p) + Native.applications events.
Proof.
  induction events as [ | e later IH]; intros p C F; cbn [Native.handle_all] in *;
    [split; [reflexivity | simpl; lia] | ].
  destruct (Native.crashed (Native.handle toString parseFloat e p)) eqn:C1.
  { rewrite handle_all_crashed in F by exact C1; congruence. }
  destruct (IH _ C1 F) as [T L]; rewrite T, L; clear T L IH F.
  unfold Native.handle in *; rewrite C in *.
  destruct e as [field value | | | [data | | error | | ] | [data | ]];
    cbn in *; rewrite ?length_app; cbn; try discriminate C1; split;
    try reflexivity; lia.
Qed.

(** X13. While the page is up, the thresholds in force on the panel are
    always the last configuration the server confirmed (the initial ones
    until then): moving sliders, Reset, opening or closing the panel, a
    refused or failed update and a failed fetch never change them; every
    press of Apply adds exactly one message to the chat; and Reset puts
    the confirmed configuration back into the form.  The page goes down
    exactly when an answer to Apply makes the chat updater throw, an ok
    answer that carries no [thresholds] or a refusal with no body; from
    then on nothing changes.  A slider changes the one field it stands
    for and no other. *)
Theorem thresholds_follow_the_server :
  (forall events p,
      Native.crashed p = false ->
      Native.crashed (Native.handle_all toString parseFloat events p)
      = existsb Native.fatal events
      /\ (Native.crashed (Native.handle_all toString parseFloat events p)
          = false ->
          Native.thresholds (Native.handle_all toString parseFloat events p)
          = Native.last_confirmed events (Native.thresholds p)
          /\ List.length
               (Native.chatMessages
                  (Native.handle_all toString parseFloat events p))
             = List.length (Native.chatMessages p)
               + Native.applications events
          /\ Native.tempThresholds
               (Native.handle_all toString parseFloat
                  (events ++ [Native.reset]) p)
             = Native.last_confirmed events (Native.thresholds p)))
  /\ (forall events later p,
        Native.crashed (Native.handle_all toString parseFloat events p)
        = true ->
        Native.handle_all toString parseFloat (events ++ later) p
        = Native.handle_all toString parseFloat events p)
  /\ (forall field other value p,
        Native.read field
          (Native.tempThresholds
             (Native.handleSliderChange parseFloat field value p))
        = parseFloat value
        /\ (field <> other ->
            Native.read other
              (Native.tempThresholds
                 (Native.handleSliderChange parseFloat field value p))
            = Native.read other (Native.tempThresholds p))).
Proof.
  split; [ | split].
  - intros events p C; split; [apply handle_all_crashes; exact C | ].
    intros F; destruct (handle_all_thresholds events p C F) as [T L].
    split; [exact T | split; [exact L | ]].
    rewrite handle_all_app; cbn [Native.handle_all].
    unfold Native.handle; rewrite F; exact T.
  - intros events later p C; rewrite handle_all_app.
    apply handle_all_crashed; exact C.
  - intros field other value p; split.
    + destruct field; reflexivity.
    + destruct field, other; intros H; try reflexivity;
        contradiction H; reflexivity.
Qed.

End PanelFacts.

Section PollingFacts.

Variable Snapshot : Type.
Variable ServerAlert : Type.

Lemma settle_all_state (polls : list (Native.Poll Snapshot ServerAlert)) :
  forall d,
    Native.cards (Native.settle_all polls d)
    = Native.latest_status polls (Native.cards d)
    /\ Native.alerts (Native.settle_all polls d)
       = Native.latest_alerts polls (Native.alerts d).
Proof.
  induction polls as [ | poll later IH]; intros d; simpl; [auto | ].
  destruct (IH (Native.settle poll d)) as [C A]; rewrite C, A.
  destruct poll; split; reflexivity.
Qed.

(** X15. The dashboard follows its polls: the station cards on the page
    are decided by the latest status poll alone (the body of an ok
    response, no cards after a failure, the page as it was if there was
    none); the alert list is the body of the latest successful alerts
    poll, failed ones leave it alone; and at most five of its alerts are
    shown, from the head of the list. *)
Theorem dashboard_follows_polls
    (polls : list (Native.Poll Snapshot ServerAlert)) d :
  Native.cards (Native.settle_all polls d)
  = Native.latest_status polls (Native.cards d)
  /\ Native.alerts (Native.settle_all polls d)
     = Native.latest_alerts polls (Native.alerts d)
  /\ match Native.alerts_section (Native.settle_all polls d) with
     | None => Native.latest_alerts polls (Native.alerts d) = []
     | Some shown =>
         shown = firstn 5 (Native.latest_alerts polls (Native.alerts d))
         /\ 0 < List.length shown <= 5
     end.
Proof.
  destruct (settle_all_state polls d) as [C A].
  split; [exact C | split; [exact A | ]].
  unfold Native.alerts_section; rewrite A.
  destruct (Native.latest_alerts polls (Native.alerts d)) as [ | a l] eqn:E;
    [reflexivity | ].
  split; [reflexivity | ].
  rewrite length_firstn; cbn [List.length]; lia.
Qed.

End PollingFacts.

(* ------------------------------------------------------------------ *)
(** * Part 17. The further theorems at concrete inputs                 *)
(* ------------------------------------------------------------------ *)

(** After five rising ticks SIF-401 is in warning and has an alert. *)
Lemma warning_has_alert_witness :
  existsb (fun a => String.eqb (Alert.station a) "SIF-401")
    (Sif.alerts
       (Sif.run toFixed1_plain (repeat Sif.voltage_up 5) Sif.initial_state))
  = true.
Proof.
  destruct (Sif.get "SIF-401"
              (Sif.stationData
                 (Sif.run toFixed1_plain (repeat Sif.voltage_up 5)
                    Sif.initial_state))) as [s | ] eqn:G;
    [ | vm_compute in G; discriminate G].
  assert (W : Station.status s = Status.warning).
  { vm_compute in G; injection G as <-; reflexivity. }
  apply get_In in G.
  destruct (warning_has_alert toFixed1_plain (repeat Sif.voltage_up 5)
              "SIF-401"%string s G W) as [a [Ha Ka]].
  apply existsb_exists; exists a; split; [exact Ha | ].
  rewrite Ka; apply String.eqb_refl.
Defined.

(** The current alert of SIF-405, raised in the second of two ticks, is
    still the only one of its kind three ticks later. *)
Lemma first_alert_is_permanent_witness :
  Sif.alerts_for "SIF-405" AlertType.current
    (Sif.alerts
       (Sif.run toFixed1_plain
          [Sif.current_down; Sif.current_up; Sif.current_up]
          (Sif.run toFixed1_plain [Sif.current_up; Sif.current_up]
             Sif.initial_state)))
  = Sif.alerts_for "SIF-405" AlertType.current
      (Sif.alerts
         (Sif.run toFixed1_plain [Sif.current_up; Sif.current_up]
            Sif.initial_state)).
Proof.
  destruct (Sif.alertExists
              (Sif.alerts
                 (Sif.run toFixed1_plain [Sif.current_up; Sif.current_up]
                    Sif.initial_state)) "SIF-405" AlertType.current)
    as [a | ] eqn:E; [ | vm_compute in E; discriminate E].
  exact (proj2 (first_alert_is_permanent toFixed1_plain
                  [Sif.current_down; Sif.current_up; Sif.current_up]
                  _ _ _ a E)).
Defined.

(** The hot station, pushed up once more, is stored at 225 V and 16 A. *)
Lemma update_saturates_witness :
  Station.voltage
    (fst (Sif.forEach_body toFixed1_plain default_thresholds [] "SIF-405"
            (Sif.effects (decimal 99 2) (decimal 99 2)) Sif.hot_station))
  = of_Z 225
  /\ Station.current
       (fst (Sif.forEach_body toFixed1_plain default_thresholds [] "SIF-405"
               (Sif.effects (decimal 99 2) (decimal 99 2)) Sif.hot_station))
     = of_Z 16.
Proof.
  destruct (update_saturates toFixed1_plain default_thresholds []
              "SIF-405" (Sif.effects (decimal 99 2) (decimal 99 2))
              Sif.hot_station) as [[_ [V _]] [_ [C _]]].
  split; [apply V | apply C]; vm_compute; reflexivity.
Defined.

(** After 25 steady ticks the card of SIF-402 has ten bars. *)
Lemma card_shows_last_ten_witness :
  option_map (fun s => List.length (Sif.trend_bars s))
    (Sif.get "SIF-402"
       (Sif.stationData
          (Sif.run toFixed1_plain (repeat Sif.steady 25) Sif.initial_state)))
  = Some 10.
Proof.
  destruct (card_shows_last_ten toFixed1_plain (repeat Sif.steady 25)
              "SIF-402"%string) as [s [G [_ L]]].
  - simpl; right; left; reflexivity.
  - rewrite G; cbn [option_map]; f_equal; exact L.
Defined.

(** Rising voltages, then falling currents: every trend point stays in
    the envelope. *)
Lemma trend_points_in_envelope_witness :
  Forall Sif.unit_draws [Sif.voltage_up; Sif.current_down]
  /\ Forall (fun entry : string * Station.t =>
               forallb Sif.point_in_envelope (Station.trend (snd entry))
               = true)
            (Sif.stationData
               (Sif.run toFixed1_plain [Sif.voltage_up; Sif.current_down]
                  Sif.initial_state)).
Proof.
  assert (D : Forall Sif.unit_draws [Sif.voltage_up; Sif.current_down]).
  { repeat constructor; vm_compute; reflexivity. }
  split; [exact D | ].
  exact (trend_points_in_envelope toFixed1_plain _ D).
Defined.

(** More alerts in the log than fit: three are shown. *)
Lemma alerts_section_shows_newest_witness :
  option_map (@List.length Alert.t)
    (Sif.alerts_section
       (Sif.alerts
          (Sif.run toFixed1_plain
             (repeat Sif.voltage_up 7 ++ repeat Sif.current_up 2)
             Sif.initial_state)))
  = Some 3.
Proof.
  destruct (Sif.alerts_section
              (Sif.alerts
                 (Sif.run toFixed1_plain
                    (repeat Sif.voltage_up 7 ++ repeat Sif.current_up 2)
                    Sif.initial_state))) as [shown | ] eqn:A;
    [ | vm_compute in A; discriminate A].
  destruct (proj1 (alerts_section_shows_newest toFixed1_plain) _ shown A)
    as [L _].
  cbn [option_map]; f_equal; rewrite L; vm_compute; reflexivity.
Defined.


(** Two server readings, one at the floor of the envelope: both bars are
    at least five percent high. *)
Lemma native_bars_stay_visible_witness :
  Forall (fun height => le (of_Z 5) height = true)
    (Native.trend_bars
       (Some [TrendPoint.mk (of_Z 215) (of_Z 15) "12:00:00";
              TrendPoint.mk (of_Z 220) (of_Z 15) "12:00:02"])).
Proof.
  apply (proj1 native_bars_stay_visible).
  repeat constructor.
Defined.

(** A refused update, then a confirmed one, then more sliding: the
    thresholds in force are the confirmed ones, the form after Reset
    too, and the voltage maximum was left alone by the first slider.  An
    ok answer that is the bare configuration takes the page down. *)
Lemma thresholds_follow_the_server_witness :
  Native.thresholds
    (Native.handle_all toFixed1_plain (fun _ => of_Z 230)
       [Native.slide Native.voltage_min_field "230";
        Native.applied (Native.rejected "voltage_min must be less");
        Native.applied (Native.ok Sif.wide_thresholds);
        Native.slide Native.voltage_max_field "230"]
       (Native.editing default_thresholds))
  = Sif.wide_thresholds
  /\ Native.tempThresholds
       (Native.handle_all toFixed1_plain (fun _ => of_Z 230)
          ([Native.slide Native.voltage_min_field "230";
            Native.applied (Native.rejected "voltage_min must be less");
            Native.applied (Native.ok Sif.wide_thresholds);
            Native.slide Native.voltage_max_field "230"]
             ++ [Native.reset])
          (Native.editing default_thresholds))
     = Sif.wide_thresholds
  /\ Native.read Native.voltage_max_field
       (Native.tempThresholds
          (Native.handleSliderChange (fun _ => of_Z 230)
             Native.voltage_min_field "230"
             (Native.editing default_thresholds)))
     = of_Z 224
  /\ Native.crashed
       (Native.handle_all toFixed1_plain (fun _ => of_Z 230)
          [Native.slide Native.voltage_min_field "230";
           Native.applied Native.ok_without_thresholds;
           Native.reset]
          (Native.editing default_thresholds))
     = true.
Proof.
  destruct (thresholds_follow_the_server toFixed1_plain (fun _ => of_Z 230))
    as [A [_ S]].
  destruct (A [Native.slide Native.voltage_min_field "230";
               Native.applied (Native.rejected "voltage_min must be less");
               Native.applied (Native.ok Sif.wide_thresholds);
               Native.slide Native.voltage_max_field "230"]
              (Native.editing default_thresholds) eq_refl) as [_ B].
  destruct (B eq_refl) as [T [_ R]].
  pose proof (proj1 (A [Native.slide Native.voltage_min_field "230";
                        Native.applied Native.ok_without_thresholds;
                        Native.reset]
                       (Native.editing default_thresholds) eq_refl)) as C.
  destruct (S Native.voltage_min_field Native.voltage_max_field
              "230"%string (Native.editing default_thresholds)) as [_ H].
  split; [exact T | split; [exact R | split; [ | exact C]]].
  rewrite H; [reflexivity | discriminate].
Defined.

(** Four ticks two seconds apart, the current rising: SIF-405 is reported
    in the second tick, SIF-401 and SIF-407 in the fourth, with larger
    identifiers. *)
Lemma ids_increase_across_ticks_witness :
  exists queued,
    Sif.alerts
      (Sif.run toFixed1_plain
         ([Sif.at_time 1700000000000 Sif.current_up;
           Sif.at_time 1700000002000 Sif.current_up]
            ++ [Sif.at_time 1700000004000 Sif.current_up;
                Sif.at_time 1700000006000 Sif.current_up])
         Sif.initial_state)
    = (Sif.alerts
         (Sif.run toFixed1_plain
            [Sif.at_time 1700000000000 Sif.current_up;
             Sif.at_time 1700000002000 Sif.current_up]
            Sif.initial_state) ++ queued)%list
    /\ (forall a b,
          In a (Sif.alerts
                  (Sif.run toFixed1_plain
                     [Sif.at_time 1700000000000 Sif.current_up;
                      Sif.at_time 1700000002000 Sif.current_up]
                     Sif.initial_state)) ->
          In b queued -> (Alert.id a < Alert.id b)%Z)
    /\ map Alert.station
         (Sif.alerts
            (Sif.run toFixed1_plain
               [Sif.at_time 1700000000000 Sif.current_up;
                Sif.at_time 1700000002000 Sif.current_up]
               Sif.initial_state))
       = ["SIF-405"%string]
    /\ map Alert.station queued = ["SIF-401"%string; "SIF-407"%string].
Proof.
  destruct (ids_increase_across_ticks toFixed1_plain
              [Sif.at_time 1700000000000 Sif.current_up;
               Sif.at_time 1700000002000 Sif.current_up]
              [Sif.at_time 1700000004000 Sif.current_up;
               Sif.at_time 1700000006000 Sif.current_up]
              Sif.initial_state 1700000000000%Z) as [queued [E H]].
  - intros a Ha; vm_compute in Ha; destruct Ha.
  - cbn [app Sif.clock_advances].
    exists 1700000002000%Z; split; [intros k; cbn [Sif.at_time Sif.alert_now]; lia | ].
    exists 1700000004000%Z; split; [intros k; cbn [Sif.at_time Sif.alert_now]; lia | ].
    exists 1700000006000%Z; split; [intros k; cbn [Sif.at_time Sif.alert_now]; lia | ].
    exists 1700000008000%Z; split; [intros k; cbn [Sif.at_time Sif.alert_now]; lia | ].
    exact I.
  - exists queued; split; [exact E | split; [exact H | ]].
    split; [vm_compute; reflexivity | ].
    vm_compute in E; injection E as E; subst queued; reflexivity.
Defined.
